(** * URL shortener Lambda handler (cdk/go/main.go): shallow embedding

    The handler is a stateless Go function over one DynamoDB table.  Go
    strings are byte sequences and are modelled by [string] (a list of
    8-bit characters); [int64] values are integers with their
    two's-complement wrap-around written out; the table is a finite map
    from the primary key [short_code] to the remaining attributes. *)

From Stdlib Require Import ZArith Lia List Ascii String.
From stdpp Require Import base option strings gmap list.

Local Open Scope string_scope.
Local Open Scope Z_scope.

(** ** Go's [int64] *)

Module Int64.

Definition min_int : Z := - 2 ^ 63.
Definition max_int : Z := 2 ^ 63 - 1.

(** Reduction of an integer to its two's-complement 64-bit value. *)
Definition wrap (z : Z) : Z := (z + 2 ^ 63) mod 2 ^ 64 - 2 ^ 63.

Definition add (x y : Z) : Z := wrap (x + y).

Definition in_range (z : Z) : Prop := min_int <= z <= max_int.

End Int64.

(** ** crypto/sha256 and encoding/hex

    [Sum256] follows the block function of the Go standard library (FIPS
    180-4): 32-bit words are integers reduced modulo 2^32 after every
    addition. *)

Module SHA256.

Definition mask32 : Z := 4294967295.

Definition add32 (x y : Z) : Z := Z.land (x + y) mask32.

(** [bits.RotateLeft32 x (-n)] *)
Definition rotr (n x : Z) : Z :=
  Z.lor (Z.shiftr x n) (Z.land (Z.shiftl x (32 - n)) mask32).

Definition not32 (x : Z) : Z := Z.lxor x mask32.

Definition _K : list Z :=
  [ 1116352408; 1899447441; 3049323471; 3921009573;
    961987163; 1508970993; 2453635748; 2870763221;
    3624381080; 310598401; 607225278; 1426881987;
    1925078388; 2162078206; 2614888103; 3248222580;
    3835390401; 4022224774; 264347078; 604807628;
    770255983; 1249150122; 1555081692; 1996064986;
    2554220882; 2821834349; 2952996808; 3210313671;
    3336571891; 3584528711; 113926993; 338241895;
    666307205; 773529912; 1294757372; 1396182291;
    1695183700; 1986661051; 2177026350; 2456956037;
    2730485921; 2820302411; 3259730800; 3345764771;
    3516065817; 3600352804; 4094571909; 275423344;
    430227734; 506948616; 659060556; 883997877;
    958139571; 1322822218; 1537002063; 1747873779;
    1955562222; 2024104815; 2227730452; 2361852424;
    2428436474; 2756734187; 3204031479; 3329325298 ].

Definition init : list Z :=
  [ 1779033703; 3144134277; 1013904242; 2773480762;
    1359893119; 2600822924; 528734635; 1541459225 ].

(** Big-endian load of the 16 words of a 64-byte chunk. *)
Fixpoint load_words (n : nat) (p : list Z) : list Z :=
  match n, p with
  | S n', b0 :: b1 :: b2 :: b3 :: p' =>
      Z.lor (Z.lor (Z.lor (Z.shiftl b0 24) (Z.shiftl b1 16)) (Z.shiftl b2 8)) b3
      :: load_words n' p'
  | _, _ => []
  end.

(** The message schedule, kept most recent word first:
    [rev_w] holds w[i-1], w[i-2], ... *)
Fixpoint extend (n : nat) (rev_w : list Z) : list Z :=
  match n with
  | O => rev_w
  | S n' =>
      let v1 := nth 1 rev_w 0 in
      let t1 := Z.lxor (Z.lxor (rotr 17 v1) (rotr 19 v1)) (Z.shiftr v1 10) in
      let v2 := nth 14 rev_w 0 in
      let t2 := Z.lxor (Z.lxor (rotr 7 v2) (rotr 18 v2)) (Z.shiftr v2 3) in
      let wi := add32 (add32 (add32 t1 (nth 6 rev_w 0)) t2) (nth 15 rev_w 0) in
      extend n' (wi :: rev_w)
  end.

Definition schedule (chunk : list Z) : list Z :=
  rev (extend 48 (rev (load_words 16 chunk))).

Record regs : Type :=
  Regs { ra : Z; rb : Z; rc : Z; rd : Z; re : Z; rf : Z; rg : Z; rh : Z }.

Definition round (s : regs) (kw : Z * Z) : regs :=
  let '(Regs a b c d e f g h) := s in
  let t1 :=
    add32 (add32 (add32 (add32 h
      (Z.lxor (Z.lxor (rotr 6 e) (rotr 11 e)) (rotr 25 e)))
      (Z.lxor (Z.land e f) (Z.land (not32 e) g)))
      (fst kw)) (snd kw) in
  let t2 :=
    add32 (Z.lxor (Z.lxor (rotr 2 a) (rotr 13 a)) (rotr 22 a))
          (Z.lxor (Z.lxor (Z.land a b) (Z.land a c)) (Z.land b c)) in
  Regs (add32 t1 t2) a b c (add32 d t1) e f g.

Definition regs_of (h : list Z) : regs :=
  Regs (nth 0 h 0) (nth 1 h 0) (nth 2 h 0) (nth 3 h 0)
       (nth 4 h 0) (nth 5 h 0) (nth 6 h 0) (nth 7 h 0).

Definition block (h : regs) (chunk : list Z) : regs :=
  let s := fold_left round (combine _K (schedule chunk)) h in
  Regs (add32 (ra h) (ra s)) (add32 (rb h) (rb s))
       (add32 (rc h) (rc s)) (add32 (rd h) (rd s))
       (add32 (re h) (re s)) (add32 (rf h) (rf s))
       (add32 (rg h) (rg s)) (add32 (rh h) (rh s)).

(** [blocks n h p] consumes [n] chunks of 64 bytes. *)
Fixpoint blocks (n : nat) (h : regs) (p : list Z) : regs :=
  match n with
  | O => h
  | S n' => blocks n' (block h (firstn 64 p)) (skipn 64 p)
  end.

Definition be_bytes (n : nat) (x : Z) : list Z :=
  map (fun i => Z.land (Z.shiftr x (8 * Z.of_nat i)) 255) (rev (seq 0 n)).

(** Padding: 0x80, zeros up to 56 modulo 64, then the bit length. *)
Definition pad (msg : list Z) : list Z :=
  let len := Z.of_nat (length msg) in
  msg ++ 128 :: repeat 0 (Z.to_nat ((55 - len) mod 64)) ++ be_bytes 8 (8 * len).

Definition Sum256 (data : list Z) : list Z :=
  let p := pad data in
  let '(Regs a b c d e f g h) := blocks (length p / 64) (regs_of init) p in
  be_bytes 4 a ++ be_bytes 4 b ++ be_bytes 4 c ++ be_bytes 4 d ++
  be_bytes 4 e ++ be_bytes 4 f ++ be_bytes 4 g ++ be_bytes 4 h.

End SHA256.

(** [[]byte(s)] *)
Definition bytes_of_string (s : string) : list Z :=
  map (fun c => Z.of_N (N_of_ascii c)) (list_ascii_of_string s).

Module Hex.

Definition hextable : string := "0123456789abcdef".

Definition digit (n : Z) : ascii :=
  match String.get (Z.to_nat n) hextable with
  | Some c => c
  | None => "0"%char
  end.

Fixpoint EncodeToString (src : list Z) : string :=
  match src with
  | [] => EmptyString
  | v :: src' =>
      String (digit (Z.shiftr v 4)) (String (digit (Z.land v 15)) (EncodeToString src'))
  end.

End Hex.

(** Go's slice expression [s[:n]] (for [n <= len(s)]). *)
Fixpoint slice_to (n : nat) (s : string) : string :=
  match n, s with
  | S n', String c s' => String c (slice_to n' s')
  | _, _ => EmptyString
  end.

(** main_test.go: the short code of a URL. *)
Definition generateShortCode (input : string) : string :=
  let hash := SHA256.Sum256 (bytes_of_string input) in
  slice_to 8 (Hex.EncodeToString hash).


(** ** package time

    A [time.Time] is the number of nanoseconds since the Unix epoch; the
    Lambda runtime runs in UTC, so [Format] prints the zone as [Z]. *)

Module Time.

Definition Second : Z := 1000000000.
Definition Hour : Z := 3600 * Second.

Definition Add (t d : Z) : Z := t + d.

(** [t.Unix()] *)
Definition Unix (t : Z) : Z := t / Second.

(** [time.Unix(sec, 0)] *)
Definition FromUnix (sec : Z) : Z := sec * Second.

Definition digit_char (d : Z) : ascii := ascii_of_N (Z.to_N (48 + d)).

(** The last [n] decimal digits of [u], zero padded. *)
Fixpoint lastDigits (n : nat) (u : Z) (acc : string) : string :=
  match n with
  | O => acc
  | S n' => lastDigits n' (u / 10) (String (digit_char (u mod 10)) acc)
  end.

Fixpoint numDigits (fuel : nat) (u : Z) : nat :=
  match fuel with
  | O => O
  | S fuel' => if u =? 0 then O else S (numDigits fuel' (u / 10))
  end.

(** [appendInt(b, x, width)]: sign, then the digits of |x| padded with
    zeros to [width]. *)
Definition appendInt (x : Z) (width : nat) : string :=
  let u := Z.abs x in
  let n := if u =? 0 then 1%nat else numDigits (S (Z.to_nat (Z.log2 u))) u in
  (if x <? 0 then "-" else EmptyString) +:+ lastDigits (Nat.max n width) u EmptyString.

(** Proleptic Gregorian date (year, month, day) of a day count since
    1970-01-01, as computed by [Time.Date]. *)
Definition civil (days : Z) : Z * Z * Z :=
  let z := days + 719468 in
  let era := z / 146097 in
  let doe := z - era * 146097 in
  let yoe := (doe - doe / 1460 + doe / 36524 - doe / 146096) / 365 in
  let doy := doe - (365 * yoe + yoe / 4 - yoe / 100) in
  let mp := (5 * doy + 2) / 153 in
  let d := doy - (153 * mp + 2) / 5 + 1 in
  let m := if mp <? 10 then mp + 3 else mp - 9 in
  let y := yoe + era * 400 + (if m <=? 2 then 1 else 0) in
  (y, m, d).

(** The layout [RFC3339] applied to a whole number of Unix seconds. *)
Definition formatSeconds (sec : Z) : string :=
  let '(y, m, d) := civil (sec / 86400) in
  let s := sec mod 86400 in
  appendInt y 4 +:+ "-" +:+ appendInt m 2 +:+ "-" +:+ appendInt d 2 +:+ "T" +:+
  appendInt (s / 3600) 2 +:+ ":" +:+ appendInt (s mod 3600 / 60) 2 +:+ ":" +:+
  appendInt (s mod 60) 2 +:+ "Z".

(** [t.Format(time.RFC3339)] *)
Definition Format_RFC3339 (t : Z) : string := formatSeconds (Unix t).

End Time.

(** ** Data model *)

Record URLRecord : Type := mkURLRecord {
  ShortCode : string;     (* dynamodbav:"short_code" *)
  OriginalURL : string;   (* dynamodbav:"original_url" *)
  ExpiresAt : Z;          (* dynamodbav:"expires_at", int64 *)
  CreatedAt : string;     (* dynamodbav:"created_at" *)
  ClickCount : Z          (* dynamodbav:"click_count,omitempty", int64 *)
}.

(** The attributes of a table item besides its primary key.  An omitted
    [click_count] (the [omitempty] case) decodes to 0 and is stored as
    such. *)
Record Attrs : Type := mkAttrs {
  original_url : string;
  expires_at : Z;
  created_at : string;
  click_count : Z
}.

(** What the table holds under a key: attributes that decode into a
    [URLRecord], or attributes of other types, on which
    [attributevalue.UnmarshalMap] returns an error. *)
Inductive Payload : Type :=
  | Attributes (a : Attrs)
  | Undecodable.

(** [map[string]types.AttributeValue]: the key attribute and the rest. *)
Record Item : Type := mkItem { short_code : string; payload : Payload }.

(** Go's [error] values. *)
Inductive error : Type := Err (msg : string).

(** What an invocation leaves behind besides the table. *)
Inductive Event : Type :=
  | EvSum256 (data : string)                       (* sha256.Sum256 was called *)
  | EvLog (msg : string)                           (* log.Printf *)
  | EvMetric (name : string) (value timestamp : Z) (* datum accepted by CloudWatch *).

Record World : Type := mkWorld {
  table : gmap string Payload;
  trace : list Event
}.

(** What the outside world does during one invocation: the successive
    readings of [time.Now()], and whether each library or service call
    returns an error. *)
Record Env : Type := mkEnv {
  clock : nat -> Z;
  marshalErr : bool;   (* attributevalue.MarshalMap *)
  putItemErr : bool;   (* dynamoClient.PutItem *)
  getItemErr : bool;   (* dynamoClient.GetItem *)
  scanErr : bool;      (* dynamoClient.Scan *)
  metricErr : bool;    (* publishCustomMetric: client missing or PutMetricData failed *)
  goClock : Z          (* time.Now() as read by the spawned goroutine *)
}.

Module Request.
(** The fields of [events.APIGatewayV2HTTPRequest] the handler reads. *)
Record t : Type := mk {
  Method : string;                      (* RequestContext.HTTP.Method *)
  RawPath : string;
  PathParameters : gmap string string;
  Body : string
}.
End Request.

Module Response.
(** [events.APIGatewayV2HTTPResponse] *)
Record t : Type := mk {
  StatusCode : Z;
  Headers : gmap string string;
  Body : string
}.
End Response.

(** The fields of [net/url.URL] the handler reads. *)
Record URL : Type := mkURL { Scheme : string }.

Inductive JSONValue : Type :=
  | JString (s : string)
  | JInt (n : Z).

(** The functions of the libraries and of the table service whose
    results the handler branches on or returns: [json.Unmarshal] into a
    [map[string]string] ([None] is an error), [json.Marshal] of a map (the
    bytes it returns), [url.Parse], and the size of the page DynamoDB
    answers a Scan with.  A page holds the items, in scan order, that
    fit in 1 MB: the first item, and [scan_room items] further ones. *)
Class Runtime : Type := {
  json_Unmarshal : string -> option (gmap string string);
  json_Marshal : gmap string JSONValue -> string;
  url_Parse : string -> option URL;
  scan_room : list Item -> nat
}.

(** ** State passing *)

Definition M (A : Type) : Type := World -> A * World.

Definition ret {A : Type} (a : A) : M A := fun w => (a, w).

Definition bind {A B : Type} (m : M A) (k : A -> M B) : M B :=
  fun w => let '(a, w') := m w in k a w'.

Notation "'let!' x ':=' m 'in' k" := (bind m (fun x => k))
  (at level 10, x name, m at level 100, k at level 200).
Notation "'do!' m 'in' k" := (bind m (fun _ => k))
  (at level 10, m at level 100, k at level 200).

Definition emit (e : Event) : M unit :=
  fun w => (tt, mkWorld (table w) (trace w ++ [e])).

Definition log_Printf (msg : string) : M unit := emit (EvLog msg).

Definition sha256_Sum256 (s : string) : M (list Z) :=
  do! emit (EvSum256 s) in ret (SHA256.Sum256 (bytes_of_string s)).

(** ** attributevalue and the DynamoDB client *)

Definition MarshalMap (env : Env) (record : URLRecord) : option Item :=
  if marshalErr env then None
  else Some (mkItem (ShortCode record)
               (Attributes (mkAttrs (OriginalURL record) (ExpiresAt record)
                                    (CreatedAt record) (ClickCount record)))).

Definition UnmarshalMap (item : Item) : option URLRecord :=
  match payload item with
  | Attributes a =>
      Some (mkURLRecord (short_code item) (original_url a) (expires_at a)
                        (created_at a) (click_count a))
  | Undecodable => None
  end.

(** [PutItem] without a condition expression replaces the item. *)
Definition PutItem (env : Env) (item : Item) : M (option error) :=
  fun w =>
    if putItemErr env then (Some (Err "PutItem"), w)
    else (None, mkWorld (<[short_code item := payload item]> (table w)) (trace w)).

(** [GetItem]: an error, or [result.Item], which is nil for a missing key. *)
Definition GetItem (env : Env) (key : string) : M (option (option Item)) :=
  fun w =>
    if getItemErr env then (None, w)
    else (Some (mkItem key <$> table w !! key), w).

(** The items of the table, in the order a scan visits them. *)
Definition table_items (w : World) : list Item :=
  (fun kv => mkItem kv.1 kv.2) <$> map_to_list (table w).

(** [Scan]: an error, or the first page of the items of the table.  The
    handler makes this one call and does not follow [LastEvaluatedKey],
    so the items beyond the first page are never seen. *)
Definition Scan `{Runtime} (env : Env) : M (option (list Item)) :=
  fun w =>
    if scanErr env then (None, w)
    else (Some (take (S (scan_room (table_items w))) (table_items w)), w).

(** [go func() { publishCustomMetric(ctx, name, 1) }()]: the datum reaches
    CloudWatch or the error is dropped; the caller does not wait. *)
Definition go_publishCustomMetric (env : Env) (metricName : string) (value : Z) : M unit :=
  if metricErr env then ret tt
  else emit (EvMetric metricName value (goClock env)).

(** ** Response bodies *)

Definition dquote : string := String "034"%char EmptyString.

Definition quoted (s : string) : string := dquote +:+ s +:+ dquote.

(** The literal [{"error": "<msg>"}]. *)
Definition error_body (msg : string) : string :=
  "{" +:+ quoted "error" +:+ ": " +:+ quoted msg +:+ "}".

Definition respond (status : Z) (headers : gmap string string) (body : string)
  : M (Response.t * option error) :=
  ret (Response.mk status headers body, None).

(** [m[k]] on a Go map of strings: the zero value for a missing key. *)
Definition index (m : gmap string string) (k : string) : string :=
  default EmptyString (m !! k).

(** ** The handler (main.go)

    The package variables are those of an initialised Lambda container:
    both clients exist, [tableName] names the one table of [World], and
    [baseURL] is the configured base of the short links. *)

Section Handler.

Context `{Runtime}.
Variable baseURL : string.

Definition internal_server_error (headers : gmap string string)
  : M (Response.t * option error) :=
  respond 500 headers (error_body "Internal server error").

Definition handleCreate (env : Env) (request : Request.t)
    (headers : gmap string string) : M (Response.t * option error) :=
  (* Parse JSON request body *)
  match json_Unmarshal (Request.Body request) with
  | None => respond 400 headers (error_body "Invalid JSON in request body")
  | Some requestData =>
    let rawURL := index requestData "url" in
    if decide (rawURL = EmptyString) then
      respond 400 headers (error_body "URL parameter is required")
    else
    (* Validate URL *)
    let invalid :=
      match url_Parse rawURL with
      | None => true
      | Some parsedURL =>
          bool_decide (Scheme parsedURL ≠ "http") &&
          bool_decide (Scheme parsedURL ≠ "https")
      end in
    if invalid then
      respond 400 headers (error_body "Invalid URL: only http and https allowed")
    else
    (* Generate short code *)
    let! hash := sha256_Sum256 rawURL in
    let shortCode := slice_to 8 (Hex.EncodeToString hash) in
    (* Create URL record with TTL (expires in 1 week) *)
    let expiresAt := Time.Unix (Time.Add (clock env 0) (7 * 24 * Time.Hour)) in
    let record :=
      {| ShortCode := shortCode;
         OriginalURL := rawURL;
         ExpiresAt := expiresAt;
         CreatedAt := Time.Format_RFC3339 (clock env 1);
         ClickCount := 0 |} in
    (* Convert to DynamoDB item *)
    match MarshalMap env record with
    | None =>
        do! log_Printf "Failed to marshal record" in
        internal_server_error headers
    | Some item =>
        (* Put item in DynamoDB *)
        let! err := PutItem env item in
        match err with
        | Some _ =>
            do! log_Printf "Failed to put item in DynamoDB" in
            internal_server_error headers
        | None =>
            let response : gmap string JSONValue :=
              {[ "short_url" := JString (baseURL +:+ "/s/" +:+ shortCode);
                 "expires_at" :=
                   JString (Time.Format_RFC3339 (Time.FromUnix expiresAt)) ]} in
            respond 200 headers (json_Marshal response)
        end
    end
  end.

Definition handleRedirect (env : Env) (request : Request.t)
    (headers : gmap string string) : M (Response.t * option error) :=
  let shortCode := index (Request.PathParameters request) "shortCode" in
  (* Get item from DynamoDB *)
  let! result := GetItem env shortCode in
  match result with
  | None =>
      do! log_Printf "Failed to get item from DynamoDB" in
      internal_server_error headers
  | Some None => respond 404 headers (error_body "Short URL not found")
  | Some (Some item) =>
    (* Unmarshal the record *)
    match UnmarshalMap item with
    | None =>
        do! log_Printf "Failed to unmarshal record" in
        internal_server_error headers
    | Some record =>
      (* Check if URL has expired *)
      if decide (Time.Unix (clock env 0) > ExpiresAt record) then
        respond 404 headers (error_body "Short URL has expired")
      else
      (* Increment click count and update record *)
      let record :=
        {| ShortCode := ShortCode record;
           OriginalURL := OriginalURL record;
           ExpiresAt := ExpiresAt record;
           CreatedAt := CreatedAt record;
           ClickCount := Int64.add (ClickCount record) 1 |} in
      do! match MarshalMap env record with
          | None => log_Printf "Failed to marshal updated record"
          | Some updatedItem =>
              let! err := PutItem env updatedItem in
              match err with
              | Some _ => log_Printf "Failed to update click count"
              | None => ret tt
              end
          end in
      (* Publish click metric *)
      do! go_publishCustomMetric env "UrlsAccessed" 1 in
      (* Redirect to original URL *)
      let redirectHeaders := <["Location" := OriginalURL record]> headers in
      respond 301 redirectHeaders EmptyString
    end
  end.

(** One iteration of the loop over [scanResult.Items]; the accumulator
    is [(urlsCreated, urlsAccessed)]. *)
Definition tally (acc : Z * Z) (item : Item) : Z * Z :=
  match UnmarshalMap item with
  | Some record => (Int64.add acc.1 1, Int64.add acc.2 (ClickCount record))
  | None => acc
  end.

Definition handleMetrics (env : Env) (request : Request.t)
    (headers : gmap string string) : M (Response.t * option error) :=
  (* Publish a metric for metrics access *)
  do! go_publishCustomMetric env "MetricsAccessed" 1 in
  (* Scan the table to get actual metrics *)
  let! scanResult := Scan env in
  match scanResult with
  | None =>
      do! log_Printf "Failed to scan DynamoDB" in
      (* Return mock data if scan fails *)
      let response : gmap string JSONValue :=
        {[ "urls_created" := JInt 0;
           "urls_accessed" := JInt 0;
           "unique_visitors" := JInt 0;
           "active_urls" := JInt 0;
           "timestamp" := JString (Time.Format_RFC3339 (clock env 0));
           "error" := JString "Failed to fetch metrics" ]} in
      respond 200 headers (json_Marshal response)
  | Some Items =>
      (* Process scan results *)
      let activeUrls := Z.of_nat (length Items) in
      let '(urlsCreated, urlsAccessed) := fold_left tally Items (0, 0) in
      let response : gmap string JSONValue :=
        {[ "urls_created" := JInt urlsCreated;
           "urls_accessed" := JInt urlsAccessed;
           "unique_visitors" := JInt urlsAccessed;
           "active_urls" := JInt activeUrls;
           "timestamp" := JString (Time.Format_RFC3339 (clock env 0)) ]} in
      respond 200 headers (json_Marshal response)
  end.

Definition handleRequest (env : Env) (request : Request.t)
  : M (Response.t * option error) :=
  let headers : gmap string string := {[ "Content-Type" := "application/json" ]} in
  (* Handle POST /create *)
  if decide (Request.Method request = "POST" ∧ Request.RawPath request = "/create") then
    handleCreate env request headers
  (* Handle GET /s/{shortCode} *)
  else if decide (Request.Method request = "GET" ∧
                  index (Request.PathParameters request) "shortCode" ≠ EmptyString) then
    handleRedirect env request headers
  (* Handle GET /metrics *)
  else if decide (Request.Method request = "GET" ∧ Request.RawPath request = "/metrics") then
    handleMetrics env request headers
  else
    respond 404 headers (error_body "Not found").

End Handler.

(** ** A runtime to run the handler on concrete requests

    [Reference] decodes JSON objects whose members are plain strings
    (no escape sequences, no other value kinds) and splits a URL the way
    [net/url] does up to its scheme; authority and path are not
    validated.  Its scan pages have room for the whole table, as for the
    small tables used below.  On the inputs used below it agrees with the
    Go standard library and with DynamoDB.  Every general theorem holds
    for any [Runtime]. *)

Module Reference.

Definition is_space (c : ascii) : bool :=
  bool_decide (c = " "%char ∨ c = "009"%char ∨ c = "010"%char ∨ c = "013"%char).

Fixpoint skip_space (s : string) : string :=
  match s with
  | String c s' => if is_space c then skip_space s' else s
  | EmptyString => s
  end.

(** The characters up to the closing quote, and what follows it. *)
Fixpoint read_string (s : string) : option (string * string) :=
  match s with
  | EmptyString => None
  | String c s' =>
      if bool_decide (c = "034"%char) then Some (EmptyString, s')
      else if bool_decide (c = "092"%char) then None
      else if (nat_of_ascii c <? 32)%nat then None
      else match read_string s' with
           | Some (v, rest) => Some (String c v, rest)
           | None => None
           end
  end.

Definition quoted_string (s : string) : option (string * string) :=
  match skip_space s with
  | String c s' => if bool_decide (c = "034"%char) then read_string s' else None
  | EmptyString => None
  end.

(** The members of an object after its opening brace, later members
    overriding earlier ones. *)
Fixpoint members (fuel : nat) (s : string) (acc : gmap string string)
  : option (gmap string string * string) :=
  match fuel with
  | O => None
  | S fuel' =>
      match quoted_string s with
      | None => None
      | Some (k, s1) =>
          match skip_space s1 with
          | String ":" s2 =>
              match quoted_string s2 with
              | None => None
              | Some (v, s3) =>
                  match skip_space s3 with
                  | String "," s4 => members fuel' s4 (<[k := v]> acc)
                  | String "}" s4 => Some (<[k := v]> acc, s4)
                  | _ => None
                  end
              end
          | _ => None
          end
      end
  end.

Definition Unmarshal (data : string) : option (gmap string string) :=
  match skip_space data with
  | String "{" s1 =>
      match skip_space s1 with
      | String "}" s2 =>
          if decide (skip_space s2 = EmptyString) then Some ∅ else None
      | _ =>
          match members (String.length s1) s1 ∅ with
          | Some (m, s2) => if decide (skip_space s2 = EmptyString) then Some m else None
          | None => None
          end
      end
  | _ => None
  end.

Definition value_text (v : JSONValue) : string :=
  match v with
  | JString s => quoted s
  | JInt n => Time.appendInt n 0
  end.

Fixpoint insert_sorted (kv : string * JSONValue) (l : list (string * JSONValue))
  : list (string * JSONValue) :=
  match l with
  | [] => [kv]
  | kv' :: l' =>
      if String.leb kv.1 kv'.1 then kv :: l else kv' :: insert_sorted kv l'
  end.

Fixpoint join (l : list (string * JSONValue)) : string :=
  match l with
  | [] => EmptyString
  | [kv] => quoted kv.1 +:+ ":" +:+ value_text kv.2
  | kv :: l' => quoted kv.1 +:+ ":" +:+ value_text kv.2 +:+ "," +:+ join l'
  end.

(** Keys in sorted order, as [json.Marshal] writes a map. *)
Definition Marshal (m : gmap string JSONValue) : string :=
  "{" +:+ join (foldr insert_sorted [] (map_to_list m)) +:+ "}".

Definition is_letter (c : ascii) : bool :=
  let n := nat_of_ascii c in
  ((97 <=? n) && (n <=? 122) || (65 <=? n) && (n <=? 90))%nat.

Definition is_scheme_char (c : ascii) : bool :=
  let n := nat_of_ascii c in
  ((48 <=? n) && (n <=? 57))%nat ||
  bool_decide (c = "+"%char ∨ c = "-"%char ∨ c = "."%char).

(** [getScheme]: the scheme and the rest, or the error "missing
    protocol scheme"; [first] tells whether the character is rawURL[0]. *)
Fixpoint getScheme_from (first : bool) (rawURL s : string) (rev_scheme : string)
  : option (string * string) :=
  match s with
  | EmptyString => Some (EmptyString, rawURL)
  | String c s' =>
      if is_letter c then getScheme_from false rawURL s' (String c rev_scheme)
      else if is_scheme_char c then
        if first then Some (EmptyString, rawURL)
        else getScheme_from false rawURL s' (String c rev_scheme)
      else if bool_decide (c = ":"%char) then
        if first then None else Some (String.rev rev_scheme, s')
      else Some (EmptyString, rawURL)
  end.

Definition getScheme (rawURL : string) : option (string * string) :=
  getScheme_from true rawURL rawURL EmptyString.

Definition lower (c : ascii) : ascii :=
  let n := nat_of_ascii c in
  if ((65 <=? n) && (n <=? 90))%nat then ascii_of_nat (n + 32) else c.

Fixpoint ToLower (s : string) : string :=
  match s with
  | EmptyString => EmptyString
  | String c s' => String (lower c) (ToLower s')
  end.

(** The part of [s] before the first occurrence of [sep]. *)
Fixpoint before (sep : ascii) (s : string) : string :=
  match s with
  | EmptyString => EmptyString
  | String c s' => if bool_decide (c = sep) then EmptyString else String c (before sep s')
  end.

Fixpoint contains (sep : ascii) (s : string) : bool :=
  match s with
  | EmptyString => false
  | String c s' => bool_decide (c = sep) || contains sep s'
  end.

Fixpoint stringContainsCTLByte (s : string) : bool :=
  match s with
  | EmptyString => false
  | String c s' =>
      let n := nat_of_ascii c in
      ((n <? 32) || (n =? 127))%nat || stringContainsCTLByte s'
  end.

Definition Parse (rawURL : string) : option URL :=
  let u := before "#" rawURL in
  if stringContainsCTLByte u then None
  else if decide (u = "*") then Some (mkURL EmptyString)
  else
    match getScheme u with
    | None => None
    | Some (scheme, rest) =>
        let scheme := ToLower scheme in
        let rest := before "?" rest in
        match rest with
        | String "/" _ => Some (mkURL scheme)
        | _ =>
            if decide (scheme ≠ EmptyString) then Some (mkURL scheme)
            else if contains ":" (before "/" rest) then None
            else Some (mkURL scheme)
        end
    end.

#[export] Instance runtime : Runtime :=
  {| json_Unmarshal := Unmarshal; json_Marshal := Marshal; url_Parse := Parse;
     scan_room := fun items => length items |}.

End Reference.

(** The body [{"url":"<u>"}] of a create request. *)
Definition create_body (u : string) : string :=
  "{" +:+ quoted "url" +:+ ":" +:+ quoted u +:+ "}".

Definition create_request (u : string) : Request.t :=
  Request.mk "POST" "/create" ∅ (create_body u).

Definition redirect_request (code : string) : Request.t :=
  Request.mk "GET" ("/s/" +:+ code) {[ "shortCode" := code ]} EmptyString.


(** ** Vocabulary of the statements *)

(** The record a create with clock readings [clock env 0] and
    [clock env 1] stores for [rawURL], as table attributes. *)
Definition created_attrs (env : Env) (rawURL : string) : Attrs :=
  mkAttrs rawURL (Time.Unix (clock env 0) + 604800)
          (Time.Format_RFC3339 (clock env 1)) 0.

Definition create_response (baseURL : string) (env : Env) (rawURL : string)
  : gmap string JSONValue :=
  {[ "short_url" := JString (baseURL +:+ "/s/" +:+ generateShortCode rawURL);
     "expires_at" := JString (Time.formatSeconds (Time.Unix (clock env 0) + 604800)) ]}.

(** The characters [hex.EncodeToString] writes. *)
Definition is_lower_hex (c : ascii) : Prop :=
  In c (list_ascii_of_string Hex.hextable).

(** A URL is accepted when it is not empty and parses with scheme
    [http] or [https]. *)
Definition accepted `{Runtime} (rawURL : string) : Prop :=
  rawURL ≠ EmptyString ∧
  ∃ parsedURL, url_Parse rawURL = Some parsedURL ∧
               (Scheme parsedURL = "http" ∨ Scheme parsedURL = "https").

(** The attributes a redirect writes back: the click count incremented
    as an [int64], everything else as read. *)
Definition bumped (a : Attrs) : Attrs :=
  mkAttrs (original_url a) (expires_at a) (created_at a)
          (Int64.add (click_count a) 1).

(** The world after the redirect of a live record [a] stored under
    [code]: the write-back (or the log line of its failure), then the
    metric datum if CloudWatch took it. *)
Definition after_write_back (env : Env) (code : string) (a : Attrs) (w : World) : World :=
  if marshalErr env then
    mkWorld (table w) (trace w ++ [EvLog "Failed to marshal updated record"])
  else if putItemErr env then
    mkWorld (table w) (trace w ++ [EvLog "Failed to update click count"])
  else mkWorld (<[code := Attributes (bumped a)]> (table w)) (trace w).

Definition after_metric (env : Env) (name : string) (w : World) : World :=
  if metricErr env then w
  else mkWorld (table w) (trace w ++ [EvMetric name 1 (goClock env)]).

Definition json_headers : gmap string string :=
  {[ "Content-Type" := "application/json" ]}.

(** The items a scan returns, the records among them, and the sum of
    their click counts over the integers. *)
Definition scanned `{Runtime} (w : World) : list Item :=
  take (S (scan_room (table_items w))) (table_items w).

Definition records (items : list Item) : list URLRecord := omap UnmarshalMap items.

Definition clicks (rs : list URLRecord) : Z := foldr (fun r n => ClickCount r + n) 0 rs.

(** The map [handleMetrics] marshals after a successful scan. *)
Definition metrics_response (urlsCreated urlsAccessed activeUrls : Z) (timestamp : string)
  : gmap string JSONValue :=
  {[ "urls_created" := JInt urlsCreated;
     "urls_accessed" := JInt urlsAccessed;
     "unique_visitors" := JInt urlsAccessed;
     "active_urls" := JInt activeUrls;
     "timestamp" := JString timestamp ]}.

(** Running a sequence of invocations, each with its own environment,
    against the world. *)
Definition exec `{Runtime} (baseURL : string) (w : World) (step : Env * Request.t) : World :=
  (handleRequest baseURL step.1 step.2 w).2.

Definition run `{Runtime} (baseURL : string) (steps : list (Env * Request.t)) (w : World)
  : World :=
  fold_left (exec baseURL) steps w.

(** [request] is a create whose URL has short code [code]. *)
Definition creates `{Runtime} (request : Request.t) (code : string) : Prop :=
  Request.Method request = "POST" ∧ Request.RawPath request = "/create" ∧
  ∃ requestData, json_Unmarshal (Request.Body request) = Some requestData ∧
                 generateShortCode (index requestData "url") = code.

(** ** The rest of the package *)

(** main_test.go: the validation helper of [TestValidateURL]. *)
Definition isVaildHTTPUrl `{Runtime} (raw : string) : bool :=
  match url_Parse raw with
  | None => false
  | Some parsedURL =>
      bool_decide (Scheme parsedURL = "http") || bool_decide (Scheme parsedURL = "https")
  end.

(** main.go [publishCustomMetric]: [client] tells whether
    [cloudwatchClient] is non-nil, [putErr] whether [PutMetricData]
    fails, [now] is the reading of [time.Now()] for the datum. *)
Definition publishCustomMetric (client putErr : bool) (metricName : string)
    (value now : Z) : M (option error) :=
  if negb client then ret (Some (Err "cloudwatch client not initialized"))
  else if putErr then ret (Some (Err "PutMetricData"))
  else do! emit (EvMetric metricName value now) in ret None.

(** What [init] leaves behind: the process exited through [log.Fatal],
    or the package variables are set; [clients] tells whether the
    DynamoDB and CloudWatch clients were created. *)
Inductive InitResult : Type :=
  | Exited (msg : string)
  | Initialized (clients : bool) (tableName baseURL : string).

Definition default_baseURL : string := "https://url-shortener.vibtellect.de".

(** main.go [init]: [environ] holds the environment variables
    ([os.Getenv] gives the empty string for an unset one) and
    [loadErr] tells whether [config.LoadDefaultConfig] fails. *)
Definition init (environ : gmap string string) (loadErr : bool) : InitResult :=
  if decide (index environ "AWS_LAMBDA_FUNCTION_NAME" = EmptyString ∧
             index environ "TEST_MODE" = EmptyString) then
    (* Running locally or in tests, don't initialize AWS clients *)
    let tableName := index environ "DYNAMODB_TABLE" in
    let tableName := if decide (tableName = EmptyString) then "test-table" else tableName in
    let baseURL := index environ "BASE_URL" in
    let baseURL := if decide (baseURL = EmptyString) then default_baseURL else baseURL in
    Initialized false tableName baseURL
  else if loadErr then Exited "Failed to load AWS config"
  else
    let tableName := index environ "DYNAMODB_TABLE" in
    let baseURL := index environ "BASE_URL" in
    if decide (tableName = EmptyString) then
      Exited "DYNAMODB_TABLE environment variable is required"
    else
      let baseURL := if decide (baseURL = EmptyString) then default_baseURL else baseURL in
      Initialized true tableName baseURL.

(** The bodies of the error responses of the handler. *)
Definition error_bodies (status : Z) : list string :=
  if decide (status = 400) then
    [ error_body "Invalid JSON in request body";
      error_body "URL parameter is required";
      error_body "Invalid URL: only http and https allowed" ]
  else if decide (status = 404) then
    [ error_body "Short URL not found";
      error_body "Short URL has expired";
      error_body "Not found" ]
  else if decide (status = 500) then [ error_body "Internal server error" ]
  else [].

(** An environment in which the table answers and the record [a] is
    not yet expired. *)
Definition resolves (a : Attrs) (env : Env) : Prop :=
  getItemErr env = false ∧ marshalErr env = false ∧ putItemErr env = false ∧
  Time.Unix (clock env 0) <= expires_at a.

(** [n] resolves of [code], one per environment. *)
Definition resolve_steps (code : string) (envs : list Env) : list (Env * Request.t) :=
  (fun env => (env, redirect_request code)) <$> envs.

(** The map [handleMetrics] marshals when the scan fails. *)
Definition scan_failure_response (timestamp : string) : gmap string JSONValue :=
  {[ "urls_created" := JInt 0;
     "urls_accessed" := JInt 0;
     "unique_visitors" := JInt 0;
     "active_urls" := JInt 0;
     "timestamp" := JString timestamp;
     "error" := JString "Failed to fetch metrics" ]}.

(** Every record of the table holds an accepted URL and is stored under
    the short code of that URL. *)
Definition sound_table `{Runtime} (w : World) : Prop :=
  ∀ k a, table w !! k = Some (Attributes a) ->
         accepted (original_url a) ∧ k = generateShortCode (original_url a).

(** Two URLs with the same short code. *)
Definition twin_a : string := "https://foo.com/28848".
Definition twin_b : string := "https://foo.com/47289".

(** ** Concrete scenarios *)

(** An environment in which every call succeeds; the clock reads [t0],
    then [t1]. *)
Definition quiet (t0 t1 : Z) : Env :=
  mkEnv (fun k => match k with O => t0 | S _ => t1 end) false false false false false t1.

(** The base URL main_test.go configures. *)
Definition test_base : string := "https://test.vibtellect.de".

Definition foo : string := "https://foo.com".
Definition foo_code : string := "a9a9b569".
Definition bar_code : string := "23d97719".

Definition empty_world : World := mkWorld ∅ [].

Definition foo_attrs (clicks : Z) : Attrs :=
  mkAttrs foo 1700604800 "2023-11-14T22:13:20Z" clicks.

Definition foo_world (clicks : Z) : World :=
  mkWorld {[ foo_code := Attributes (foo_attrs clicks) ]} [].

(** A create whose two clock readings straddle a second boundary. *)
Definition straddling : Env := quiet 1700000000999999999 1700000001000000000.

(** One hundred seconds after 1700000000, and one second past the
    expiry of [foo_attrs]. *)
Definition soon : Env := quiet 1700000100000000000 1700000100000000000.
Definition late : Env := quiet 1700604801000000000 1700604801000000000.

Definition metrics_request : Request.t := Request.mk "GET" "/metrics" ∅ EmptyString.

(** A table whose one item does not decode into a [URLRecord] (its
    [expires_at] is a string, say). *)
Definition stray_world : World := mkWorld {[ foo_code := Undecodable ]} [].

(** Two records with 2^62 clicks each. *)
Definition busy_world : World :=
  mkWorld {[ foo_code := Attributes (foo_attrs 4611686018427387904);
             bar_code := Attributes (mkAttrs "https://bar.com" 1700604800
                                             "2023-11-14T22:13:20Z" 4611686018427387904) ]} [].

(** * Properties *)

(** ** Short codes *)

Lemma be_bytes_length n x : length (SHA256.be_bytes n x) = n.
Proof. unfold SHA256.be_bytes. by rewrite length_map, length_rev, length_seq. Qed.

Lemma Sum256_length data : length (SHA256.Sum256 data) = 32%nat.
Proof.
  unfold SHA256.Sum256.
  destruct (SHA256.blocks _ _ _).
  by rewrite !length_app, !be_bytes_length.
Qed.

Lemma EncodeToString_length src :
  String.length (Hex.EncodeToString src) = (2 * length src)%nat.
Proof. induction src as [|v src IH]; simpl; [done | rewrite IH; lia]. Qed.

Lemma slice_to_length n s :
  (n <= String.length s)%nat -> String.length (slice_to n s) = n.
Proof.
  revert s; induction n as [|n IH]; intros [|c s] Hn; simpl in *; try lia.
  rewrite IH; lia.
Qed.

Lemma get_In s : ∀ n c, String.get n s = Some c -> In c (list_ascii_of_string s).
Proof.
  induction s as [|c' s IH]; intros [|n] c Hget; simpl in *; try discriminate.
  - left. congruence.
  - right. eauto.
Qed.

Lemma digit_lower_hex n : is_lower_hex (Hex.digit n).
Proof.
  unfold Hex.digit, is_lower_hex.
  destruct (String.get _ _) as [c|] eqn:Hget; [by eapply get_In|].
  simpl. tauto.
Qed.

Lemma EncodeToString_lower_hex src :
  Forall is_lower_hex (list_ascii_of_string (Hex.EncodeToString src)).
Proof.
  induction src as [|v src IH]; simpl; [constructor|].
  repeat (constructor; [apply digit_lower_hex|]). exact IH.
Qed.

Lemma slice_to_Forall (P : ascii -> Prop) n s :
  Forall P (list_ascii_of_string s) -> Forall P (list_ascii_of_string (slice_to n s)).
Proof.
  revert s; induction n as [|n IH]; intros [|c s] Hall; simpl; try constructor;
    inversion Hall; subst; auto.
Qed.

Lemma generateShortCode_length input :
  String.length (generateShortCode input) = 8%nat.
Proof.
  unfold generateShortCode. apply slice_to_length.
  rewrite EncodeToString_length, Sum256_length. lia.
Qed.

Lemma generateShortCode_nonempty input : generateShortCode input ≠ EmptyString.
Proof.
  intros E. pose proof (generateShortCode_length input) as L.
  rewrite E in L. discriminate L.
Qed.

(** ** Arithmetic of [int64] and of the clock *)

Lemma wrap_in_range z : Int64.in_range z -> Int64.wrap z = z.
Proof.
  unfold Int64.in_range, Int64.min_int, Int64.max_int, Int64.wrap. intros Hz.
  rewrite Z.mod_small; lia.
Qed.

Lemma wrap_add_l x y : Int64.wrap (Int64.wrap x + y) = Int64.wrap (x + y).
Proof.
  unfold Int64.wrap.
  replace ((x + 2 ^ 63) mod 2 ^ 64 - 2 ^ 63 + y + 2 ^ 63)
    with ((x + 2 ^ 63) mod 2 ^ 64 + y) by lia.
  replace (x + y + 2 ^ 63) with ((x + 2 ^ 63) + y) by lia.
  by rewrite Zplus_mod_idemp_l.
Qed.

Lemma Unix_Add_week t :
  Time.Unix (Time.Add t (7 * 24 * Time.Hour)) = Time.Unix t + 604800.
Proof.
  unfold Time.Unix, Time.Add, Time.Hour.
  replace (t + 7 * 24 * (3600 * Time.Second)) with (t + 604800 * Time.Second) by lia.
  apply Z.div_add. unfold Time.Second. lia.
Qed.

Lemma Unix_FromUnix sec : Time.Unix (Time.FromUnix sec) = sec.
Proof. unfold Time.Unix, Time.FromUnix. apply Z.div_mul. unfold Time.Second; lia. Qed.

(** ** The create path *)

Section CreateFacts.

Context `{Runtime}.
Variable baseURL : string.

(** Every path through [handleCreate], by the first check that fails. *)
Lemma handleCreate_cases env request headers w :
  (json_Unmarshal (Request.Body request) = None ∧
   handleCreate baseURL env request headers w =
     (Response.mk 400 headers (error_body "Invalid JSON in request body"), None, w))
  ∨ ∃ requestData, json_Unmarshal (Request.Body request) = Some requestData ∧
    let rawURL := index requestData "url" in
    (rawURL = EmptyString ∧
     handleCreate baseURL env request headers w =
       (Response.mk 400 headers (error_body "URL parameter is required"), None, w))
    ∨ (rawURL ≠ EmptyString ∧ ¬ accepted rawURL ∧
       handleCreate baseURL env request headers w =
         (Response.mk 400 headers
            (error_body "Invalid URL: only http and https allowed"), None, w))
    ∨ (accepted rawURL ∧ marshalErr env = true ∧
       handleCreate baseURL env request headers w =
         (Response.mk 500 headers (error_body "Internal server error"), None,
          mkWorld (table w)
                  (trace w ++ [EvSum256 rawURL] ++ [EvLog "Failed to marshal record"])))
    ∨ (accepted rawURL ∧ marshalErr env = false ∧ putItemErr env = true ∧
       handleCreate baseURL env request headers w =
         (Response.mk 500 headers (error_body "Internal server error"), None,
          mkWorld (table w)
                  (trace w ++ [EvSum256 rawURL] ++ [EvLog "Failed to put item in DynamoDB"])))
    ∨ (accepted rawURL ∧ marshalErr env = false ∧ putItemErr env = false ∧
       handleCreate baseURL env request headers w =
         (Response.mk 200 headers (json_Marshal (create_response baseURL env rawURL)), None,
          mkWorld (<[generateShortCode rawURL := Attributes (created_attrs env rawURL)]>
                     (table w))
                  (trace w ++ [EvSum256 rawURL]))).
Proof.
  unfold handleCreate.
  destruct (json_Unmarshal (Request.Body request)) as [requestData|] eqn:Ejson;
    [right; exists requestData; split; [done|] | left; done].
  cbv zeta.
  destruct (decide (index requestData "url" = EmptyString)) as [Eempty|Hne]; [left; done|right].
  destruct (url_Parse (index requestData "url")) as [parsedURL|] eqn:Eparse; cycle 1.
  { left. split_and!; [done| |done]. intros (_ & u & Hu & _). congruence. }
  destruct (bool_decide (Scheme parsedURL ≠ "http") &&
            bool_decide (Scheme parsedURL ≠ "https")) eqn:Escheme.
  { left. split_and!; [done| |done].
    intros (_ & u & Hu & Hs). simplify_eq.
    apply andb_true_iff in Escheme as [E1 E2].
    apply bool_decide_eq_true in E1, E2. tauto. }
  right.
  assert (accepted (index requestData "url")) as Hacc.
  { split; [done|]. exists parsedURL. split; [done|].
    apply andb_false_iff in Escheme as [E|E]; apply bool_decide_eq_false in E.
    - left. by destruct (decide (Scheme parsedURL = "http")).
    - right. by destruct (decide (Scheme parsedURL = "https")). }
  unfold bind, sha256_Sum256, emit, MarshalMap, PutItem, log_Printf,
    internal_server_error, respond, ret, bind, emit; simpl.
  destruct (marshalErr env) eqn:Em; simpl.
  { left. split_and!; try done. by rewrite <- app_assoc. }
  destruct (putItemErr env) eqn:Ep; simpl.
  { right; left. split_and!; try done. by rewrite <- app_assoc. }
  right; right. split_and!; try done.
  unfold create_response, created_attrs, generateShortCode, Time.Format_RFC3339.
  by rewrite Unix_Add_week, Unix_FromUnix.
Qed.

End CreateFacts.

(** ** The redirect path *)

Section RedirectFacts.

(** Every path through [handleRedirect]. *)
Lemma handleRedirect_cases env request headers w :
  let code := index (Request.PathParameters request) "shortCode" in
  (getItemErr env = true ∧
   handleRedirect env request headers w =
     (Response.mk 500 headers (error_body "Internal server error"), None,
      mkWorld (table w) (trace w ++ [EvLog "Failed to get item from DynamoDB"])))
  ∨ (getItemErr env = false ∧ table w !! code = None ∧
     handleRedirect env request headers w =
       (Response.mk 404 headers (error_body "Short URL not found"), None, w))
  ∨ (getItemErr env = false ∧ table w !! code = Some Undecodable ∧
     handleRedirect env request headers w =
       (Response.mk 500 headers (error_body "Internal server error"), None,
        mkWorld (table w) (trace w ++ [EvLog "Failed to unmarshal record"])))
  ∨ ∃ a, getItemErr env = false ∧ table w !! code = Some (Attributes a) ∧
      ((Time.Unix (clock env 0) > expires_at a ∧
        handleRedirect env request headers w =
          (Response.mk 404 headers (error_body "Short URL has expired"), None, w))
       ∨ (Time.Unix (clock env 0) <= expires_at a ∧
          handleRedirect env request headers w =
            (Response.mk 301 (<["Location" := original_url a]> headers) EmptyString, None,
             after_metric env "UrlsAccessed" (after_write_back env code a w)))).
Proof.
  intros code. unfold handleRedirect, bind, GetItem. fold code.
  destruct (getItemErr env) eqn:Eg; [left; done|right].
  destruct (table w !! code) as [[a|]|] eqn:Elook; simpl.
  - right; right. exists a. split_and!; try done.
    unfold UnmarshalMap; simpl.
    destruct (decide (Time.Unix (clock env 0) > expires_at a)) as [Hexp|Hlive];
      [left; done|right].
    split; [lia|].
    unfold after_metric, after_write_back, go_publishCustomMetric, MarshalMap,
      PutItem, log_Printf, emit, respond, ret, bumped; simpl.
    destruct (marshalErr env), (putItemErr env), (metricErr env); done.
  - right; left. done.
  - left. done.
Qed.

End RedirectFacts.

(** ** Routing *)

Section Claims.

Context `{Runtime}.
Variable baseURL : string.

Lemma route_create env request w :
  Request.Method request = "POST" -> Request.RawPath request = "/create" ->
  handleRequest baseURL env request w = handleCreate baseURL env request json_headers w.
Proof.
  intros Hm Hp. unfold handleRequest.
  destruct (decide (_ ∧ _)) as [_|Hn]; [done|tauto].
Qed.

Lemma route_redirect env request w :
  Request.Method request = "GET" ->
  index (Request.PathParameters request) "shortCode" ≠ EmptyString ->
  handleRequest baseURL env request w = handleRedirect env request json_headers w.
Proof.
  intros Hm Hp. unfold handleRequest.
  destruct (decide (_ ∧ _)) as [[Hpost _]|_]; [congruence|].
  destruct (decide (_ ∧ _)) as [_|Hn]; [done|tauto].
Qed.

Lemma handleCreate_200 env request headers w requestData :
  json_Unmarshal (Request.Body request) = Some requestData ->
  Response.StatusCode (handleCreate baseURL env request headers w).1.1 = 200 ->
  let rawURL := index requestData "url" in
  accepted rawURL ∧
  handleCreate baseURL env request headers w =
    (Response.mk 200 headers (json_Marshal (create_response baseURL env rawURL)), None,
     mkWorld (<[generateShortCode rawURL := Attributes (created_attrs env rawURL)]>
                (table w))
             (trace w ++ [EvSum256 rawURL])).
Proof.
  intros Hjson Hok.
  destruct (handleCreate_cases baseURL env request headers w)
    as [[E _]|(m & Em & Hcases)]; [congruence|].
  rewrite Hjson in Em; injection Em as <-. cbv zeta in Hcases.
  destruct Hcases as [(_ & E)|[(_ & _ & E)|[(_ & _ & E)|[(_ & _ & _ & E)|(Ha & _ & _ & E)]]]];
    rewrite E in Hok; simpl in Hok; try discriminate Hok.
  by split.
Qed.

(** C1. For a non-empty URL that parses with scheme [http] or [https]
    and a store that takes the write, the create answers 200 with the
    short URL of the code; a resolve of that code, with the table
    untouched in between, a working table read and a clock not past the
    record's expiry, answers 301 with [Location] equal to the submitted
    URL, byte for byte. *)
Theorem C1_create_then_resolve env1 env2 request1 request2 w requestData parsedURL :
  Request.Method request1 = "POST" ->
  Request.RawPath request1 = "/create" ->
  json_Unmarshal (Request.Body request1) = Some requestData ->
  let rawURL := index requestData "url" in
  rawURL ≠ EmptyString ->
  url_Parse rawURL = Some parsedURL ->
  Scheme parsedURL = "http" ∨ Scheme parsedURL = "https" ->
  marshalErr env1 = false ->
  putItemErr env1 = false ->
  let created := handleRequest baseURL env1 request1 w in
  Request.Method request2 = "GET" ->
  index (Request.PathParameters request2) "shortCode" = generateShortCode rawURL ->
  getItemErr env2 = false ->
  Time.Unix (clock env2 0) <= Time.Unix (clock env1 0) + 604800 ->
  created.1 =
    (Response.mk 200 json_headers (json_Marshal (create_response baseURL env1 rawURL)),
     None) ∧
  (handleRequest baseURL env2 request2 created.2).1 =
    (Response.mk 301 (<["Location" := rawURL]> json_headers) EmptyString, None).
Proof.
  intros Hm Hp Hjson rawURL Hne Hparse Hscheme Hmarshal Hput created Hget Hcode
    Hread Hlive.
  subst created. rewrite route_create by done.
  assert (handleCreate baseURL env1 request1 json_headers w =
          (Response.mk 200 json_headers
             (json_Marshal (create_response baseURL env1 rawURL)), None,
           mkWorld (<[generateShortCode rawURL := Attributes (created_attrs env1 rawURL)]>
                      (table w))
                   (trace w ++ [EvSum256 rawURL]))) as E.
  { destruct (handleCreate_cases baseURL env1 request1 json_headers w)
      as [[E _]|(m & Em & Hcases)]; [congruence|].
    rewrite Hjson in Em; injection Em as <-. cbv zeta in Hcases. fold rawURL in Hcases.
    destruct Hcases
      as [(E0 & _)|[(_ & Hrej & _)|[(_ & E1 & _)|[(_ & _ & E1 & _)|(_ & _ & _ & E)]]]];
      try congruence.
    exfalso. apply Hrej. split; [done|]. by exists parsedURL. }
  rewrite E; simpl. split; [done|].
  rewrite route_redirect; [|done|rewrite Hcode; apply generateShortCode_nonempty].
  match goal with |- (handleRedirect _ _ _ ?w1).1 = _ =>
    destruct (handleRedirect_cases env2 request2 json_headers w1)
      as [[E1 _]|[(_ & E1 & _)|[(_ & E1 & _)|(a & _ & E1 & Hcases)]]]
  end; try congruence; rewrite Hcode in E1; simpl in E1;
    rewrite lookup_insert_eq in E1; try discriminate E1.
  injection E1 as <-.
  destruct Hcases as [[Hexp _]|[_ E2]]; [simpl in Hexp; lia|].
  by rewrite E2.
Qed.

(** C2. The short code a successful create assigns is the first 8
    characters of the lower-case hex SHA-256 digest of the raw URL
    string (8 characters among 0-9 and a-f): the record is stored under
    it and the returned short URL ends in it.  The code depends on the URL string alone;
    [https://foo.com] gives [a9a9b569], [https://bar.com] gives
    [23d97719]. *)
Theorem C2_short_code_is_sha256_prefix :
  (∀ env request headers w requestData,
     json_Unmarshal (Request.Body request) = Some requestData ->
     let rawURL := index requestData "url" in
     let code :=
       slice_to 8 (Hex.EncodeToString (SHA256.Sum256 (bytes_of_string rawURL))) in
     let out := handleCreate baseURL env request headers w in
     Response.StatusCode out.1.1 = 200 ->
     String.length code = 8%nat ∧
     Forall is_lower_hex (list_ascii_of_string code) ∧
     (∃ a, table out.2 !! code = Some (Attributes a) ∧ original_url a = rawURL) ∧
     ∃ expiry,
       Response.Body out.1.1 =
         json_Marshal {[ "short_url" := JString (baseURL +:+ "/s/" +:+ code);
                         "expires_at" := JString expiry ]})
  ∧ generateShortCode "https://foo.com" = "a9a9b569"
  ∧ generateShortCode "https://bar.com" = "23d97719".
Proof.
  split; [|split; vm_compute; reflexivity].
  intros env request headers w requestData Hjson rawURL code out Hok.
  destruct (handleCreate_200 _ _ _ _ _ Hjson Hok) as [_ E].
  subst out. rewrite E; simpl. split_and!.
  - apply generateShortCode_length.
  - apply slice_to_Forall, EncodeToString_lower_hex.
  - eexists. split; [apply lookup_insert_eq|done].
  - eexists. reflexivity.
Qed.

(** C3. A create whose URL is empty, does not parse, or has a scheme
    other than [http] and [https] answers 400 and leaves the world as
    it was: no record is written and nothing is hashed.  The empty
    string is turned away by the check that precedes parsing. *)
Theorem C3_invalid_input_rejected env request headers w requestData :
  json_Unmarshal (Request.Body request) = Some requestData ->
  let rawURL := index requestData "url" in
  rawURL = EmptyString ∨ url_Parse rawURL = None ∨
    (∃ parsedURL, url_Parse rawURL = Some parsedURL ∧
                  Scheme parsedURL ≠ "http" ∧ Scheme parsedURL ≠ "https") ->
  ∃ msg,
    handleCreate baseURL env request headers w =
      (Response.mk 400 headers (error_body msg), None, w) ∧
    (rawURL = EmptyString -> msg = "URL parameter is required").
Proof.
  intros Hjson rawURL Hbad.
  destruct (handleCreate_cases baseURL env request headers w)
    as [[E _]|(m & Em & Hcases)]; [congruence|].
  rewrite Hjson in Em; injection Em as <-. cbv zeta in Hcases. fold rawURL in Hcases.
  assert (rawURL ≠ EmptyString -> ¬ accepted rawURL) as Hrej.
  { intros Hne (_ & u & Hu & Hs).
    destruct Hbad as [?|[?|(u' & Hu' & ? & ?)]]; [done|congruence|].
    rewrite Hu in Hu'; injection Hu' as <-. tauto. }
  destruct Hcases as [(E0 & E)|[(Hne & _ & E)|[(Ha & _)|[(Ha & _)|(Ha & _)]]]];
    try (exfalso; destruct Ha as [Hne ?]; by apply (Hrej Hne)).
  - eexists. split; [exact E|done].
  - eexists. split; [exact E|done].
Qed.

(** C4 (amended). With a working table read, a resolve answers 404
    with body [{"error": "Short URL not found"}] when the table has no
    record for the code, and 404 with body
    [{"error": "Short URL has expired"}] when it has one whose
    [expires_at] the clock has passed; in both cases the world,
    and so the expired record, is left as it was. *)
Theorem C4_missing_or_expired env request headers w :
  getItemErr env = false ->
  let code := index (Request.PathParameters request) "shortCode" in
  (table w !! code = None ->
   handleRedirect env request headers w =
     (Response.mk 404 headers (error_body "Short URL not found"), None, w))
  ∧ (∀ a, table w !! code = Some (Attributes a) ->
          Time.Unix (clock env 0) > expires_at a ->
          handleRedirect env request headers w =
            (Response.mk 404 headers (error_body "Short URL has expired"), None, w)).
Proof.
  intros Hread code.
  destruct (handleRedirect_cases env request headers w)
    as [[E _]|[(_ & E & R)|[(_ & E & R)|(a & _ & E & Hcases)]]];
    fold code in E; [congruence|..];
    (split; [intros E'|intros a' E' Hexp]); try congruence.
  rewrite E in E'; injection E' as <-.
  destruct Hcases as [[_ R]|[Hlive _]]; [done|lia].
Qed.

(** C5. The redirect of a stored, unexpired record is the same 301
    response, with [Location] the record's original URL and an empty
    body, whatever the outcome of the click-count write-back (marshal
    or put) and of the metric emission; when the write-back fails the
    table is left as it was. *)
Theorem C5_redirect_ignores_side_effect_failures
    clk marshal_fails put_fails scan_fails metric_fails gclk request headers w a :
  let env := mkEnv clk marshal_fails put_fails false scan_fails metric_fails gclk in
  table w !! index (Request.PathParameters request) "shortCode" = Some (Attributes a) ->
  Time.Unix (clk 0%nat) <= expires_at a ->
  (handleRedirect env request headers w).1 =
    (Response.mk 301 (<["Location" := original_url a]> headers) EmptyString, None)
  ∧ (marshal_fails = true ∨ put_fails = true ->
     table (handleRedirect env request headers w).2 = table w).
Proof.
  intros env Hlook Hlive.
  destruct (handleRedirect_cases env request headers w)
    as [[E _]|[(_ & E & _)|[(_ & E & _)|(a' & _ & E & Hcases)]]];
    try (simpl in E; congruence).
  rewrite Hlook in E; injection E as <-.
  destruct Hcases as [[Hexp _]|[_ R]]; [simpl in Hexp; lia|].
  rewrite R; simpl. split; [done|].
  unfold after_metric, after_write_back; simpl.
  intros Hfail.
  destruct marshal_fails, put_fails, metric_fails; simpl; try done;
    destruct Hfail; discriminate.
Qed.

(** C7 (amended). When the redirect of a stored, unexpired record
    writes back, the table changes at the record's key only, and there
    only in [click_count], which becomes the old count plus 1 as an
    [int64]: the old count plus 1 unless the old count was the largest
    [int64].  [original_url], [created_at] and [expires_at] are written
    back as read. *)
Theorem C7_write_back_changes_click_count_only env request headers w a :
  let code := index (Request.PathParameters request) "shortCode" in
  getItemErr env = false ->
  table w !! code = Some (Attributes a) ->
  Time.Unix (clock env 0) <= expires_at a ->
  marshalErr env = false ->
  putItemErr env = false ->
  table (handleRedirect env request headers w).2 =
    <[code := Attributes (mkAttrs (original_url a) (expires_at a) (created_at a)
                                  (Int64.wrap (click_count a + 1)))]> (table w)
  ∧ (Int64.in_range (click_count a) -> click_count a ≠ Int64.max_int ->
     Int64.wrap (click_count a + 1) = click_count a + 1).
Proof.
  intros code Hread Hlook Hlive Hm Hp. split.
  - destruct (handleRedirect_cases env request headers w)
      as [[E _]|[(_ & E & _)|[(_ & E & _)|(a' & _ & E & Hcases)]]];
      fold code in E; try congruence.
    rewrite Hlook in E; injection E as <-.
    destruct Hcases as [[Hexp _]|[_ R]]; [lia|].
    rewrite R. unfold after_metric, after_write_back. rewrite Hm, Hp.
    by destruct (metricErr env).
  - intros Hr Hmax. apply wrap_in_range.
    unfold Int64.in_range, Int64.min_int, Int64.max_int in *. lia.
Qed.

(** C10. Whatever the request, the world and the outcome of every
    library and service call, the handler returns a nil error and a
    response whose status is 200, 301, 400, 404 or 500. *)
Theorem C10_handler_total env request w :
  let out := handleRequest baseURL env request w in
  out.1.2 = None ∧
  (Response.StatusCode out.1.1 = 200 ∨ Response.StatusCode out.1.1 = 301 ∨
   Response.StatusCode out.1.1 = 400 ∨ Response.StatusCode out.1.1 = 404 ∨
   Response.StatusCode out.1.1 = 500).
Proof.
  unfold handleRequest. cbv zeta. fold json_headers.
  repeat destruct (decide (_ ∧ _)) as [_|_].
  - destruct (handleCreate_cases baseURL env request json_headers w)
      as [[_ E]|(m & _ & Hcases)].
    { rewrite E; simpl; tauto. }
    cbv zeta in Hcases.
    destruct Hcases
      as [(_ & E)|[(_ & _ & E)|[(_ & _ & E)|[(_ & _ & _ & E)|(_ & _ & _ & E)]]]];
      rewrite E; simpl; tauto.
  - destruct (handleRedirect_cases env request json_headers w)
      as [[_ E]|[(_ & _ & E)|[(_ & _ & E)|(a & _ & _ & [[_ E]|[_ E]])]]];
      rewrite E; simpl; tauto.
  - unfold handleMetrics, bind, go_publishCustomMetric, Scan, log_Printf, emit,
      respond, ret.
    destruct (metricErr env), (scanErr env); simpl;
      try destruct (fold_left _ _ _); simpl; tauto.
  - simpl; tauto.
Qed.

(** C6 (amended). A create that answers 200 writes, whatever the table
    held under the short code before, the record with
    [original_url] the submitted URL, [click_count] 0, [expires_at] the
    Unix second of the first clock reading plus 604800, and
    [created_at] the RFC 3339 text of the second clock reading.  When
    both readings fall in the same second [s], these are [s + 604800]
    and the text of [s].  A later successful create of the same URL
    overwrites the record with the values of its own readings. *)
Theorem C6_create_upserts_fresh_record env request headers w requestData :
  json_Unmarshal (Request.Body request) = Some requestData ->
  let rawURL := index requestData "url" in
  let code := generateShortCode rawURL in
  let out := handleCreate baseURL env request headers w in
  Response.StatusCode out.1.1 = 200 ->
  table out.2 =
    <[code := Attributes (mkAttrs rawURL (Time.Unix (clock env 0) + 604800)
                                  (Time.Format_RFC3339 (clock env 1)) 0)]> (table w)
  ∧ (∀ s, Time.Unix (clock env 0) = s -> Time.Unix (clock env 1) = s ->
          table out.2 !! code =
            Some (Attributes (mkAttrs rawURL (s + 604800) (Time.formatSeconds s) 0)))
  ∧ (∀ env' request' headers',
       json_Unmarshal (Request.Body request') = Some requestData ->
       let out' := handleCreate baseURL env' request' headers' out.2 in
       Response.StatusCode out'.1.1 = 200 ->
       table out'.2 = <[code := Attributes (created_attrs env' rawURL)]> (table w)).
Proof.
  intros Hjson rawURL code out Hok.
  destruct (handleCreate_200 _ _ _ _ _ Hjson Hok) as [_ E].
  subst out. rewrite E; simpl. fold rawURL code. split_and!.
  - done.
  - intros s E0 E1. rewrite lookup_insert_eq.
    unfold created_attrs, Time.Format_RFC3339. by rewrite E0, E1.
  - intros env' request' headers' Hjson' Hok'.
    destruct (handleCreate_200 _ _ _ _ _ Hjson' Hok') as [_ E'].
    rewrite E'; simpl. fold rawURL code.
    apply insert_insert_eq.
Qed.

(** ** The report *)

Lemma tally_fold items c n :
  fold_left tally items (Int64.wrap c, Int64.wrap n) =
    (Int64.wrap (c + Z.of_nat (length (records items))),
     Int64.wrap (n + clicks (records items))).
Proof.
  revert c n. induction items as [|item items IH]; intros c n; simpl.
  { by rewrite !Z.add_0_r. }
  unfold tally at 2, records; simpl.
  destruct (UnmarshalMap item) as [record|]; simpl.
  - unfold Int64.add. rewrite !wrap_add_l, IH. f_equal; f_equal; fold (records items); lia.
  - apply IH.
Qed.

Lemma records_length items :
  Forall (fun item => payload item ≠ Undecodable) items ->
  length (records items) = length items.
Proof.
  unfold records. induction 1 as [|item items Hitem _ IH]; simpl; [done|].
  unfold UnmarshalMap at 1. destruct (payload item); [simpl; by f_equal|done].
Qed.

Lemma scanned_from_table w item :
  item ∈ scanned w -> table w !! short_code item = Some (payload item).
Proof.
  intros Hin. apply subseteq_take in Hin.
  apply list_elem_of_fmap in Hin as ([k p] & -> & Hin).
  by apply elem_of_map_to_list in Hin.
Qed.

Lemma scanned_empty w : table w = ∅ -> scanned w = [].
Proof.
  intros Hempty. unfold scanned, table_items. by rewrite Hempty, map_to_list_empty.
Qed.


Lemma handleMetrics_page env request headers w :
  scanErr env = false ->
  (handleMetrics env request headers w).1 =
    (let '(urlsCreated, urlsAccessed) := fold_left tally (scanned w) (0, 0) in
     (Response.mk 200 headers
        (json_Marshal
           (metrics_response urlsCreated urlsAccessed (Z.of_nat (length (scanned w)))
                             (Time.Format_RFC3339 (clock env 0)))), None)).
Proof.
  intros Hscan.
  unfold handleMetrics, bind, go_publishCustomMetric, Scan, emit, respond, ret.
  rewrite Hscan.
  destruct (metricErr env); unfold scanned, table_items, metrics_response; simpl;
    by destruct (fold_left _ _ _).
Qed.

Lemma handleMetrics_table env request headers w :
  table (handleMetrics env request headers w).2 = table w.
Proof.
  unfold handleMetrics, bind, go_publishCustomMetric, Scan, log_Printf, emit,
    respond, ret.
  destruct (metricErr env), (scanErr env); simpl;
    try destruct (fold_left _ _ _); done.
Qed.

(** C8 (amended). When the scan succeeds the report answers 200 with
    [active_urls] the number of items the one Scan call returned,
    [urls_created] the number of them that decode as records and
    [urls_accessed] the sum of their click counts, both counted in
    [int64], and [unique_visitors] the same value as [urls_accessed].
    The items returned are items of the table.  When they are records
    only, [urls_created] is their number; when a count fits [int64] it
    is reported exactly; on the empty table the four counters are
    zero. *)
Theorem C8_report_counts env request headers w :
  scanErr env = false ->
  let items := scanned w in
  let rs := records items in
  let timestamp := Time.Format_RFC3339 (clock env 0) in
  (handleMetrics env request headers w).1 =
    (Response.mk 200 headers
       (json_Marshal
          (metrics_response (Int64.wrap (Z.of_nat (length rs))) (Int64.wrap (clicks rs))
                            (Z.of_nat (length items)) timestamp)), None)
  ∧ (∀ item, item ∈ items -> table w !! short_code item = Some (payload item))
  ∧ (Forall (fun item => payload item ≠ Undecodable) items -> length rs = length items)
  ∧ (Z.of_nat (length rs) <= Int64.max_int ->
     Int64.wrap (Z.of_nat (length rs)) = Z.of_nat (length rs))
  ∧ (Int64.in_range (clicks rs) -> Int64.wrap (clicks rs) = clicks rs)
  ∧ (table w = ∅ ->
     (handleMetrics env request headers w).1 =
       (Response.mk 200 headers (json_Marshal (metrics_response 0 0 0 timestamp)), None)).
Proof.
  intros Hscan items rs timestamp.
  assert ((handleMetrics env request headers w).1 =
    (Response.mk 200 headers
       (json_Marshal
          (metrics_response (Int64.wrap (Z.of_nat (length rs))) (Int64.wrap (clicks rs))
                            (Z.of_nat (length items)) timestamp)), None)) as Hresp.
  { rewrite handleMetrics_page by done. fold items.
    pose proof (tally_fold items 0 0) as Hfold. fold rs in Hfold.
    change (Int64.wrap 0) with 0 in Hfold. rewrite !Z.add_0_l in Hfold.
    by rewrite Hfold. }
  split_and!.
  - exact Hresp.
  - apply scanned_from_table.
  - apply records_length.
  - intros Hle. apply wrap_in_range.
    unfold Int64.in_range, Int64.min_int, Int64.max_int in *. lia.
  - apply wrap_in_range.
  - intros Hempty. rewrite Hresp. subst rs items.
    by rewrite (scanned_empty _ Hempty).
Qed.

(** ** Sequences of invocations *)

(** One invocation that is not a create for [code] leaves the record
    under [code] as it was or writes it back with its count bumped. *)
Lemma exec_keeps_or_bumps env request w code a :
  table w !! code = Some (Attributes a) ->
  ¬ creates request code ->
  table (exec baseURL w (env, request)) !! code = Some (Attributes a) ∨
  table (exec baseURL w (env, request)) !! code = Some (Attributes (bumped a)).
Proof.
  intros Hlook Hother. unfold exec, handleRequest; simpl. fold json_headers.
  destruct (decide (_ ∧ _)) as [[Hm Hp]|_].
  { destruct (handleCreate_cases baseURL env request json_headers w)
      as [[_ E]|(m & Hjson & Hcases)]; [rewrite E; by left|].
    cbv zeta in Hcases.
    destruct Hcases
      as [(_ & E)|[(_ & _ & E)|[(_ & _ & E)|[(_ & _ & _ & E)|(_ & _ & _ & E)]]]];
      rewrite E; simpl; try by left.
    left. rewrite lookup_insert_ne; [done|].
    intros Hsame. apply Hother. unfold creates. eauto 6. }
  destruct (decide (_ ∧ _)) as [_|_].
  { destruct (handleRedirect_cases env request json_headers w)
      as [[_ E]|[(_ & _ & E)|[(_ & _ & E)|(a' & _ & Hlook' & [[_ E]|[_ E]])]]];
      rewrite E; simpl; try by left.
    unfold after_metric, after_write_back.
    destruct (metricErr env), (marshalErr env), (putItemErr env); simpl;
      try (by left);
      (destruct (decide (index (Request.PathParameters request) "shortCode" = code))
         as [Hsame|Hdiff];
       [ rewrite Hsame in *; rewrite Hlook in Hlook'; injection Hlook' as <-;
         right; apply lookup_insert_eq
       | left; by rewrite lookup_insert_ne ]). }
  destruct (decide (_ ∧ _)) as [_|_]; [|by left].
  left. by rewrite handleMetrics_table.
Qed.

(** C9 (amended). Along any sequence of invocations none of which is a
    create for the record's short code, the record stays in the table
    and its [click_count] never decreases: each invocation leaves it
    alone or adds 1, as long as the count stays within [int64].  Its
    other attributes do not change.  A successful create for the code
    replaces the record by one with [click_count] 0. *)
Theorem C9_click_count_monotone_between_creates steps w code a :
  table w !! code = Some (Attributes a) ->
  Forall (fun step => ¬ creates step.2 code) steps ->
  Int64.min_int <= click_count a ->
  click_count a + Z.of_nat (length steps) <= Int64.max_int ->
  (∃ a', table (run baseURL steps w) !! code = Some (Attributes a') ∧
         click_count a <= click_count a' <= click_count a + Z.of_nat (length steps) ∧
         original_url a' = original_url a ∧ expires_at a' = expires_at a ∧
         created_at a' = created_at a)
  ∧ (∀ env request headers,
       creates request code ->
       let out := handleCreate baseURL env request headers w in
       Response.StatusCode out.1.1 = 200 ->
       ∃ a', table out.2 !! code = Some (Attributes a') ∧ click_count a' = 0).
Proof.
  intros Hlook Hsteps Hmin Hmax. split.
  - revert w a Hlook Hmin Hmax.
    induction Hsteps as [|[env request] steps Hstep _ IH]; intros w a Hlook Hmin Hmax.
    { exists a. simpl. split_and!; try done; lia. }
    simpl in Hstep. rewrite length_cons in Hmax.
    destruct (exec_keeps_or_bumps env request w code a Hlook Hstep) as [Hkeep|Hbump].
    + destruct (IH _ a Hkeep ltac:(lia) ltac:(lia)) as (a' & Ha' & Hc & Hrest).
      exists a'. rewrite length_cons.
      split_and!; [exact Ha'|lia..|tauto|tauto|tauto].
    + assert (click_count (bumped a) = click_count a + 1) as Hcount.
      { unfold bumped, Int64.add; simpl. apply wrap_in_range.
        unfold Int64.in_range. unfold Int64.min_int, Int64.max_int in *. lia. }
      destruct (IH _ (bumped a) Hbump ltac:(rewrite Hcount; lia)
                  ltac:(rewrite Hcount; lia)) as (a' & Ha' & Hc & Hrest).
      exists a'. rewrite Hcount in Hc. rewrite length_cons.
      split_and!; [exact Ha'|lia..|tauto|tauto|tauto].
  - intros env request headers (_ & _ & m & Hjson & Hcode) out Hok.
    destruct (handleCreate_200 _ _ _ _ _ Hjson Hok) as [_ E].
    subst out. rewrite E; simpl. rewrite Hcode.
    eexists. split; [apply lookup_insert_eq|done].
Qed.

End Claims.

(** * The claims on concrete requests *)

Section Concrete.

Local Existing Instance Reference.runtime.

Lemma C1_create_then_resolve_witness :
  let created := handleRequest test_base straddling (create_request foo) empty_world in
  created.1 =
    (Response.mk 200 json_headers
       (json_Marshal (create_response test_base straddling (index {[ "url" := foo ]} "url"))),
     None) ∧
  (handleRequest test_base soon (redirect_request foo_code) created.2).1 =
    (Response.mk 301 (<["Location" := index {[ "url" := foo ]} "url"]> json_headers)
       EmptyString, None).
Proof.
  apply (C1_create_then_resolve test_base straddling soon (create_request foo)
           (redirect_request foo_code) empty_world {[ "url" := foo ]} (mkURL "https")).
  - reflexivity.
  - reflexivity.
  - vm_compute; reflexivity.
  - vm_compute; discriminate.
  - vm_compute; reflexivity.
  - right. reflexivity.
  - reflexivity.
  - reflexivity.
  - reflexivity.
  - vm_compute; reflexivity.
  - reflexivity.
  - vm_compute; discriminate.
Defined.

Lemma C2_short_code_witness :
  let rawURL := index {[ "url" := foo ]} "url" in
  let code :=
    slice_to 8 (Hex.EncodeToString (SHA256.Sum256 (bytes_of_string rawURL))) in
  let out := handleCreate test_base straddling (create_request foo) json_headers
               empty_world in
  String.length code = 8%nat ∧
  Forall is_lower_hex (list_ascii_of_string code) ∧
  (∃ a, table out.2 !! code = Some (Attributes a) ∧ original_url a = rawURL) ∧
  ∃ expiry,
    Response.Body out.1.1 =
      json_Marshal {[ "short_url" := JString (test_base +:+ "/s/" +:+ code);
                      "expires_at" := JString expiry ]}.
Proof.
  apply (proj1 (C2_short_code_is_sha256_prefix test_base) straddling
           (create_request foo) json_headers empty_world {[ "url" := foo ]});
    vm_compute; reflexivity.
Defined.

Lemma C3_invalid_input_witness :
  ∃ msg,
    handleCreate test_base straddling (create_request "ftp://example.com")
      json_headers empty_world =
      (Response.mk 400 json_headers (error_body msg), None, empty_world) ∧
    (index {[ "url" := "ftp://example.com" ]} "url" = EmptyString ->
     msg = "URL parameter is required").
Proof.
  apply (C3_invalid_input_rejected test_base straddling
           (create_request "ftp://example.com") json_headers empty_world
           {[ "url" := "ftp://example.com" ]}).
  - vm_compute; reflexivity.
  - right; right. exists (mkURL "ftp"). split_and!.
    + vm_compute; reflexivity.
    + vm_compute; discriminate.
    + vm_compute; discriminate.
Defined.

(** C4, as stated, fails: the record of [foo_world] expired one second
    ago and is still in the table; the resolve answers 404, but with
    the body [{"error": "Short URL has expired"}]. *)
Lemma C4_expired_body_counterexample :
  let out := handleRedirect late (redirect_request foo_code) json_headers (foo_world 0) in
  table (foo_world 0) !! foo_code = Some (Attributes (foo_attrs 0)) ∧
  Time.Unix (clock late 0) > expires_at (foo_attrs 0) ∧
  out.1.1 = Response.mk 404 json_headers (error_body "Short URL has expired") ∧
  out.1.1 ≠ Response.mk 404 json_headers (error_body "Short URL not found") ∧
  table out.2 !! foo_code = Some (Attributes (foo_attrs 0)).
Proof. vm_compute. split_and!; try reflexivity. discriminate. Qed.

Lemma C4_missing_or_expired_witness :
  handleRedirect soon (redirect_request foo_code) json_headers empty_world =
    (Response.mk 404 json_headers (error_body "Short URL not found"), None, empty_world)
  ∧ handleRedirect late (redirect_request foo_code) json_headers (foo_world 0) =
    (Response.mk 404 json_headers (error_body "Short URL has expired"), None,
     foo_world 0).
Proof.
  split.
  - apply (proj1 (C4_missing_or_expired soon (redirect_request foo_code) json_headers
                    empty_world eq_refl)).
    vm_compute; reflexivity.
  - apply (proj2 (C4_missing_or_expired late (redirect_request foo_code) json_headers
                    (foo_world 0) eq_refl) (foo_attrs 0)).
    + vm_compute; reflexivity.
    + vm_compute; reflexivity.
Defined.

Lemma C5_redirect_ignores_failures_witness :
  let env := mkEnv (clock soon) true true false false true 0 in
  (handleRedirect env (redirect_request foo_code) json_headers (foo_world 0)).1 =
    (Response.mk 301 (<["Location" := original_url (foo_attrs 0)]> json_headers) EmptyString, None)
  ∧ (true = true ∨ true = true ->
     table (handleRedirect env (redirect_request foo_code) json_headers
              (foo_world 0)).2 = table (foo_world 0)).
Proof.
  apply (C5_redirect_ignores_side_effect_failures (clock soon) true true false true 0
           (redirect_request foo_code) json_headers (foo_world 0) (foo_attrs 0)).
  - vm_compute; reflexivity.
  - vm_compute; discriminate.
Defined.

(** C6, as stated, fails: when the clock passes a second boundary
    between the two readings of [handleCreate], no instant [T] is the
    creation time of the stored record in both senses. *)
Lemma C6_two_clock_readings_counterexample :
  let out := handleCreate test_base straddling (create_request foo) json_headers
               empty_world in
  Response.StatusCode out.1.1 = 200 ∧
  table out.2 !! foo_code =
    Some (Attributes (mkAttrs foo 1700604800 "2023-11-14T22:13:21Z" 0)) ∧
  ¬ ∃ T, 1700604800 = Time.Unix T + 604800 ∧
         "2023-11-14T22:13:21Z" = Time.Format_RFC3339 T.
Proof.
  split_and!; [vm_compute; reflexivity..|].
  intros (T & Hexpiry & Hcreated).
  unfold Time.Format_RFC3339 in Hcreated.
  replace (Time.Unix T) with 1700000000 in Hcreated by lia.
  vm_compute in Hcreated. discriminate Hcreated.
Qed.

Lemma C6_create_upserts_witness :
  let rawURL := index {[ "url" := foo ]} "url" in
  let code := generateShortCode rawURL in
  let out := handleCreate test_base soon (create_request foo) json_headers
               (foo_world 5) in
  table out.2 =
    <[code := Attributes (mkAttrs rawURL (Time.Unix (clock soon 0) + 604800)
                                  (Time.Format_RFC3339 (clock soon 1)) 0)]>
      (table (foo_world 5))
  ∧ (∀ s, Time.Unix (clock soon 0) = s -> Time.Unix (clock soon 1) = s ->
          table out.2 !! code =
            Some (Attributes (mkAttrs rawURL (s + 604800) (Time.formatSeconds s) 0)))
  ∧ (∀ env' request' headers',
       json_Unmarshal (Request.Body request') = Some {[ "url" := foo ]} ->
       let out' := handleCreate test_base env' request' headers' out.2 in
       Response.StatusCode out'.1.1 = 200 ->
       table out'.2 =
         <[code := Attributes (created_attrs env' rawURL)]> (table (foo_world 5))).
Proof.
  apply (C6_create_upserts_fresh_record test_base soon (create_request foo)
           json_headers (foo_world 5) {[ "url" := foo ]});
    vm_compute; reflexivity.
Defined.

(** C7, as stated, fails: a record read with the largest [int64] click
    count is written back with the smallest one, not with the count
    plus 1. *)
Lemma C7_click_count_wraps_counterexample :
  let out := handleRedirect soon (redirect_request foo_code) json_headers
               (foo_world 9223372036854775807) in
  Response.StatusCode out.1.1 = 301 ∧
  table out.2 !! foo_code = Some (Attributes (foo_attrs (-9223372036854775808))) ∧
  -9223372036854775808 ≠ 9223372036854775807 + 1.
Proof. vm_compute. split_and!; try reflexivity. discriminate. Qed.

Lemma C7_write_back_witness :
  let code := index (Request.PathParameters (redirect_request foo_code)) "shortCode" in
  table (handleRedirect soon (redirect_request foo_code) json_headers (foo_world 5)).2 =
    <[code := Attributes (mkAttrs (original_url (foo_attrs 5)) (expires_at (foo_attrs 5))
                                  (created_at (foo_attrs 5))
                                  (Int64.wrap (click_count (foo_attrs 5) + 1)))]>
      (table (foo_world 5))
  ∧ (Int64.in_range (click_count (foo_attrs 5)) ->
     click_count (foo_attrs 5) ≠ Int64.max_int ->
     Int64.wrap (click_count (foo_attrs 5) + 1) = click_count (foo_attrs 5) + 1).
Proof.
  apply (C7_write_back_changes_click_count_only soon (redirect_request foo_code)
           json_headers (foo_world 5) (foo_attrs 5));
    try (vm_compute; reflexivity).
  vm_compute; discriminate.
Defined.

(** C8, as stated, fails twice.  The click counts of [busy_world] sum
    to 2^63, and the report gives [urls_accessed] as -2^63.  The scan of
    [stray_world] returns one item, which does not decode, and the
    report gives [urls_created] as 0 beside [active_urls] 1. *)
Lemma C8_report_counterexample :
  let timestamp := Time.Format_RFC3339 (clock soon 0) in
  let busy := handleMetrics soon metrics_request json_headers busy_world in
  let stray := handleMetrics soon metrics_request json_headers stray_world in
  (clicks (records (scanned busy_world)) = 9223372036854775808 ∧
   Response.Body busy.1.1 =
     json_Marshal (metrics_response 2 (-9223372036854775808) 2 timestamp) ∧
   Response.Body busy.1.1 ≠
     json_Marshal (metrics_response 2 9223372036854775808 2 timestamp))
  ∧ (scanned stray_world = [mkItem foo_code Undecodable] ∧
     Response.Body stray.1.1 = json_Marshal (metrics_response 0 0 1 timestamp) ∧
     Response.Body stray.1.1 ≠ json_Marshal (metrics_response 1 0 1 timestamp)).
Proof. vm_compute. split_and!; try reflexivity; discriminate. Qed.

Lemma C8_report_counts_witness :
  let items := scanned (foo_world 5) in
  let rs := records items in
  let timestamp := Time.Format_RFC3339 (clock soon 0) in
  (handleMetrics soon metrics_request json_headers (foo_world 5)).1 =
    (Response.mk 200 json_headers
       (json_Marshal
          (metrics_response (Int64.wrap (Z.of_nat (length rs))) (Int64.wrap (clicks rs))
                            (Z.of_nat (length items)) timestamp)), None)
  ∧ (∀ item, item ∈ items ->
             table (foo_world 5) !! short_code item = Some (payload item))
  ∧ (Forall (fun item => payload item ≠ Undecodable) items -> length rs = length items)
  ∧ (Z.of_nat (length rs) <= Int64.max_int ->
     Int64.wrap (Z.of_nat (length rs)) = Z.of_nat (length rs))
  ∧ (Int64.in_range (clicks rs) -> Int64.wrap (clicks rs) = clicks rs)
  ∧ (table (foo_world 5) = ∅ ->
     (handleMetrics soon metrics_request json_headers (foo_world 5)).1 =
       (Response.mk 200 json_headers
          (json_Marshal (metrics_response 0 0 0 timestamp)), None)).
Proof.
  apply (C8_report_counts soon metrics_request json_headers (foo_world 5)).
  vm_compute; reflexivity.
Defined.

(** C9, as stated, fails: after a create and one resolve the record of
    [foo] has one click; a second create of [foo] writes it with none. *)
Lemma C9_create_resets_counterexample :
  let steps :=
    [ (straddling, create_request foo); (soon, redirect_request foo_code) ] in
  let before := run test_base steps empty_world in
  let after := exec test_base before (soon, create_request foo) in
  ∃ a a', table before !! foo_code = Some (Attributes a) ∧
          table after !! foo_code = Some (Attributes a') ∧
          click_count a = 1 ∧ click_count a' = 0 ∧
          click_count a' < click_count a.
Proof. vm_compute. do 2 eexists. split_and!; reflexivity. Qed.

Lemma C9_click_count_monotone_witness :
  let steps :=
    [ (soon, redirect_request foo_code); (soon, metrics_request);
      (soon, create_request "https://bar.com"); (soon, redirect_request foo_code) ] in
  (∃ a', table (run test_base steps (foo_world 5)) !! foo_code = Some (Attributes a') ∧
         click_count (foo_attrs 5) <= click_count a'
           <= click_count (foo_attrs 5) + Z.of_nat (length steps) ∧
         original_url a' = original_url (foo_attrs 5) ∧
         expires_at a' = expires_at (foo_attrs 5) ∧
         created_at a' = created_at (foo_attrs 5))
  ∧ (∀ env request headers,
       creates request foo_code ->
       let out := handleCreate test_base env request headers (foo_world 5) in
       Response.StatusCode out.1.1 = 200 ->
       ∃ a', table out.2 !! foo_code = Some (Attributes a') ∧ click_count a' = 0).
Proof.
  apply (C9_click_count_monotone_between_creates test_base).
  - vm_compute; reflexivity.
  - repeat constructor; simpl; intros (Hm & _ & m & Hjson & Hcode);
      try discriminate Hm.
    vm_compute in Hjson. injection Hjson as <-.
    vm_compute in Hcode. discriminate Hcode.
  - vm_compute; discriminate.
  - vm_compute; discriminate.
Defined.

End Concrete.

(** Membership in an explicit list of events. *)
Ltac members :=
  simpl; repeat split; intros;
  repeat match goal with
         | M : _ ∈ _ :: _ |- _ => apply elem_of_cons in M as [M|M]
         | M : _ ∈ [] |- _ => by apply elem_of_nil in M
         | M : _ ∧ _ |- _ => destruct M
         | |- _ ∉ _ => intros ?
         end;
  try discriminate; try congruence;
  try (rewrite ?elem_of_cons; auto; fail).

(** Membership in an explicit list of bodies. *)
Ltac listed :=
  solve [ repeat first [ apply list_elem_of_here | apply list_elem_of_further ] ].

(** * Further properties of the handler *)

Section Handler_facts.

Context `{Runtime}.
Variable baseURL : string.

(** ** Routing and validation *)

(** A request that is neither a GET nor the POST of [/create] is
    answered 404 [{"error": "Not found"}]; nothing is read or written,
    so the answer is the same in every environment. *)
Theorem unrouted_request_not_found env request w :
  Request.Method request ≠ "GET" ->
  ¬ (Request.Method request = "POST" ∧ Request.RawPath request = "/create") ->
  handleRequest baseURL env request w =
    (Response.mk 404 json_headers (error_body "Not found"), None, w).
Proof.
  intros Hget Hcreate. unfold handleRequest.
  destruct (decide (_ ∧ _)) as [?|_]; [tauto|].
  destruct (decide (_ ∧ _)) as [[? _]|_]; [tauto|].
  destruct (decide (_ ∧ _)) as [[? _]|_]; [tauto|].
  reflexivity.
Qed.

Lemma accepted_isVaildHTTPUrl rawURL :
  accepted rawURL ↔ rawURL ≠ EmptyString ∧ isVaildHTTPUrl rawURL = true.
Proof.
  unfold accepted, isVaildHTTPUrl. split.
  - intros (Hne & u & -> & Hs). split; [done|].
    apply orb_true_iff. destruct Hs; [left|right]; by apply bool_decide_eq_true.
  - intros (Hne & Hv). split; [done|].
    destruct (url_Parse rawURL) as [u|]; [|discriminate]. exists u. split; [done|].
    apply orb_true_iff in Hv as [E|E]; apply bool_decide_eq_true in E; tauto.
Qed.



(** For a non-empty URL the handler's inline check and the helper
    [isVaildHTTPUrl] that main_test.go exercises decide alike: the
    handler answers 400 "Invalid URL: only http and https allowed"
    exactly when the helper says no. *)
Theorem handler_validation_agrees_with_helper env request headers w requestData :
  json_Unmarshal (Request.Body request) = Some requestData ->
  let rawURL := index requestData "url" in
  rawURL ≠ EmptyString ->
  isVaildHTTPUrl rawURL = false ↔
  handleCreate baseURL env request headers w =
    (Response.mk 400 headers (error_body "Invalid URL: only http and https allowed"),
     None, w).
Proof.
  intros Hjson rawURL Hne.
  destruct (handleCreate_cases baseURL env request headers w)
    as [[E _]|(m & Em & Hcases)]; [congruence|].
  rewrite Hjson in Em; injection Em as <-. cbv zeta in Hcases. fold rawURL in Hcases.
  destruct Hcases
    as [(E0 & _)|[(_ & Hrej & E)|[(Ha & _ & E)|[(Ha & _ & _ & E)|(Ha & _ & _ & E)]]]];
    [done|..].
  - split; [done|]. intros _.
    destruct (isVaildHTTPUrl rawURL) eqn:Hv; [|done].
    exfalso. apply Hrej, accepted_isVaildHTTPUrl. done.
  - apply accepted_isVaildHTTPUrl in Ha as [_ Hv]. rewrite Hv, E.
    split; [discriminate|]. intros E'. discriminate E'.
  - apply accepted_isVaildHTTPUrl in Ha as [_ Hv]. rewrite Hv, E.
    split; [discriminate|]. intros E'. discriminate E'.
  - apply accepted_isVaildHTTPUrl in Ha as [_ Hv]. rewrite Hv, E.
    split; [discriminate|]. intros E'. discriminate E'.
Qed.

(** ** The create path *)

(** A create writes at most the key of its short code: every other
    key keeps what it held, and a create that does not answer 200
    leaves the whole table as it was. *)
Theorem create_changes_one_key env request headers w :
  let out := handleCreate baseURL env request headers w in
  (Response.StatusCode out.1.1 ≠ 200 -> table out.2 = table w) ∧
  (∀ requestData k,
     json_Unmarshal (Request.Body request) = Some requestData ->
     k ≠ generateShortCode (index requestData "url") ->
     table out.2 !! k = table w !! k).
Proof.
  destruct (handleCreate_cases baseURL env request headers w)
    as [[Hjson E]|(m & Hjson & Hcases)]; cbv zeta.
  { rewrite E; simpl. split; [done|]. intros; congruence. }
  cbv zeta in Hcases.
  destruct Hcases
    as [(_ & E)|[(_ & _ & E)|[(_ & _ & E)|[(_ & _ & _ & E)|(_ & _ & _ & E)]]]];
    rewrite E; simpl; split; try done.
  intros m' k Hjson' Hk. rewrite Hjson in Hjson'; injection Hjson' as <-.
  by rewrite lookup_insert_ne.
Qed.

(** The expiry a successful create reports to the client is the text of
    the [expires_at] it stored, and the short URL it returns ends in the
    key it stored the record under. *)
Theorem create_reports_stored_expiry env request headers w requestData :
  json_Unmarshal (Request.Body request) = Some requestData ->
  let code := generateShortCode (index requestData "url") in
  let out := handleCreate baseURL env request headers w in
  Response.StatusCode out.1.1 = 200 ->
  ∃ a, table out.2 !! code = Some (Attributes a) ∧
       Response.Body out.1.1 =
         json_Marshal {[ "short_url" := JString (baseURL +:+ "/s/" +:+ code);
                         "expires_at" := JString (Time.formatSeconds (expires_at a)) ]}.
Proof.
  intros Hjson code out Hok.
  destruct (handleCreate_200 baseURL _ _ _ _ _ Hjson Hok) as [_ E].
  subst out. rewrite E; simpl. eexists. split; [apply lookup_insert_eq|done].
Qed.

(** Two URLs with the same short code share one record: the later
    successful create replaces the earlier one, and a resolve of the
    code redirects to the later URL. *)
Theorem colliding_creates_last_wins
    env1 env2 env3 request1 request2 request3 headers1 headers2 headers3 w data1 data2 :
  json_Unmarshal (Request.Body request1) = Some data1 ->
  json_Unmarshal (Request.Body request2) = Some data2 ->
  let url1 := index data1 "url" in
  let url2 := index data2 "url" in
  generateShortCode url1 = generateShortCode url2 ->
  let out1 := handleCreate baseURL env1 request1 headers1 w in
  Response.StatusCode out1.1.1 = 200 ->
  let out2 := handleCreate baseURL env2 request2 headers2 out1.2 in
  Response.StatusCode out2.1.1 = 200 ->
  index (Request.PathParameters request3) "shortCode" = generateShortCode url1 ->
  getItemErr env3 = false ->
  Time.Unix (clock env3 0) <= Time.Unix (clock env2 0) + 604800 ->
  table out2.2 !! generateShortCode url1 = Some (Attributes (created_attrs env2 url2)) ∧
  (handleRedirect env3 request3 headers3 out2.2).1 =
    (Response.mk 301 (<["Location" := url2]> headers3) EmptyString, None).
Proof.
  intros Hjson1 Hjson2 url1 url2 Hsame out1 Hok1 out2 Hok2 Hcode Hread Hlive.
  destruct (handleCreate_200 baseURL _ _ _ _ _ Hjson2 Hok2) as [_ E2].
  fold url2 out2 in E2.
  assert (table out2.2 !! generateShortCode url1 =
          Some (Attributes (created_attrs env2 url2))) as Hlook.
  { rewrite E2; simpl. rewrite Hsame. apply lookup_insert_eq. }
  split; [exact Hlook|].
  destruct (handleRedirect_cases env3 request3 headers3 out2.2)
    as [[E _]|[(_ & E & _)|[(_ & E & _)|(a & _ & E & Hcases)]]];
    try congruence; rewrite Hcode, Hlook in E; try discriminate E.
  injection E as <-.
  destruct Hcases as [[Hexp _]|[_ R]]; [simpl in Hexp; lia|].
  by rewrite R.
Qed.

(** ** The redirect path *)

(** With a working table read, a stored record is redirected to exactly
    while the clock has not passed its [expires_at]: the second of expiry
    itself still redirects, the next one answers 404. *)
Theorem redirect_exactly_while_live env request headers w a :
  let out := handleRedirect env request headers w in
  getItemErr env = false ->
  table w !! index (Request.PathParameters request) "shortCode" = Some (Attributes a) ->
  (Response.StatusCode out.1.1 = 301 ↔ Time.Unix (clock env 0) <= expires_at a) ∧
  (Response.StatusCode out.1.1 = 404 ↔ Time.Unix (clock env 0) > expires_at a).
Proof.
  intros out Hread Hlook. subst out.
  destruct (handleRedirect_cases env request headers w)
    as [[E _]|[(_ & E & _)|[(_ & E & _)|(a' & _ & E & Hcases)]]];
    try congruence.
  rewrite Hlook in E; injection E as <-.
  destruct Hcases as [[Hexp R]|[Hlive R]]; rewrite R; simpl;
    split; split; intros; (done || lia).
Qed.

(** A resolve neither creates nor removes a record: whatever its
    outcome, the table keeps its keys, and every key other than the one
    asked for keeps its content. *)
Theorem redirect_keeps_keys env request headers w :
  let out := handleRedirect env request headers w in
  (dom (table out.2) : gset string) = dom (table w) ∧
  ∀ k, k ≠ index (Request.PathParameters request) "shortCode" ->
       table out.2 !! k = table w !! k.
Proof.
  destruct (handleRedirect_cases env request headers w)
    as [[_ E]|[(_ & _ & E)|[(_ & _ & E)|(a & _ & Hlook & [[_ E]|[_ E]])]]];
    cbv zeta; rewrite E; simpl; try done.
  unfold after_metric, after_write_back.
  destruct (metricErr env), (marshalErr env), (putItemErr env); simpl; try done;
    (split; [apply dom_insert_lookup_L; by rewrite Hlook
            |intros k Hk; by rewrite lookup_insert_ne]).
Qed.

(** The events a resolve appends to the trace: the [UrlsAccessed] datum
    is among them exactly when the answer is 301 and CloudWatch took the
    datum, and a resolve never hashes. *)
Theorem redirect_metric_iff_301 env request headers w :
  let out := handleRedirect env request headers w in
  ∃ events : list Event,
    trace out.2 = (trace w ++ events)%list ∧
    (EvMetric "UrlsAccessed" 1 (goClock env) ∈ events ↔
     Response.StatusCode out.1.1 = 301 ∧ metricErr env = false) ∧
    ∀ data, EvSum256 data ∉ events.
Proof.
  cbv zeta.
  pose proof (handleRedirect_cases env request headers w) as Hcases.
  cbv zeta in Hcases.
  destruct Hcases
    as [[_ E]|[(_ & _ & E)|[(_ & _ & E)|(a & _ & Hlook & [[_ E]|[_ E]])]]];
    rewrite E; simpl;
    [ | exists [] | | exists [] | ];
    try (eexists; split; [reflexivity|]; members);
    try (split; [by rewrite app_nil_r|]; members).
  unfold after_metric, after_write_back.
  destruct (metricErr env), (marshalErr env), (putItemErr env); simpl;
    rewrite <- ?app_assoc;
    first [ eexists; split; [reflexivity|]; members
          | exists []; split; [by rewrite app_nil_r|]; members ].
Qed.

(** A link lives seven days: after a successful create whose first clock
    reading is in second [t], a resolve of its code with a working table
    read answers 301 through second [t + 604800] and 404 from the next
    second on. *)
Theorem created_link_lives_seven_days
    env request headers w requestData env' request' headers' :
  json_Unmarshal (Request.Body request) = Some requestData ->
  let created := handleCreate baseURL env request headers w in
  Response.StatusCode created.1.1 = 200 ->
  index (Request.PathParameters request') "shortCode" =
    generateShortCode (index requestData "url") ->
  getItemErr env' = false ->
  let out := handleRedirect env' request' headers' created.2 in
  (Response.StatusCode out.1.1 = 301 ↔
   Time.Unix (clock env' 0) <= Time.Unix (clock env 0) + 604800) ∧
  (Response.StatusCode out.1.1 = 404 ↔
   Time.Unix (clock env' 0) > Time.Unix (clock env 0) + 604800).
Proof.
  intros Hjson created Hok Hcode Hread out.
  destruct (handleCreate_200 baseURL _ _ _ _ _ Hjson Hok) as [_ E].
  fold created in E. subst out.
  destruct (handleRedirect_cases env' request' headers' created.2)
    as [[E' _]|[(_ & E' & _)|[(_ & E' & _)|(a & _ & E' & Hcases)]]];
    try congruence; rewrite Hcode, E in E'; simpl in E';
    rewrite lookup_insert_eq in E'; try discriminate E'.
  injection E' as <-. simpl in Hcases.
  destruct Hcases as [[Hexp R]|[Hlive R]]; rewrite R; simpl;
    split; split; intros; (done || lia).
Qed.

(** ** Sequences of resolves *)

Lemma redirect_request_code code :
  index (Request.PathParameters (redirect_request code)) "shortCode" = code.
Proof. unfold index, redirect_request; simpl. by rewrite lookup_singleton_eq. Qed.

Lemma attrs_eta a n :
  n = click_count a ->
  mkAttrs (original_url a) (expires_at a) (created_at a) n = a.
Proof. intros ->. by destruct a. Qed.

Lemma resolve_steps_table envs : ∀ w code a,
  code ≠ EmptyString ->
  table w !! code = Some (Attributes a) ->
  Forall (resolves a) envs ->
  Int64.min_int <= click_count a ->
  click_count a + Z.of_nat (length envs) <= Int64.max_int ->
  table (run baseURL (resolve_steps code envs) w) =
    <[code := Attributes (mkAttrs (original_url a) (expires_at a) (created_at a)
                                  (click_count a + Z.of_nat (length envs)))]> (table w).
Proof.
  induction envs as [|env envs IH]; intros w code a Hcode Hlook Hall Hmin Hmax.
  { simpl. rewrite attrs_eta by lia. symmetry. by apply insert_id. }
  apply Forall_cons in Hall as [(Hread & Hm & Hp & Hlive) Hall].
  rewrite length_cons in Hmax. simpl.
  assert (table (exec baseURL w (env, redirect_request code)) =
          <[code := Attributes (bumped a)]> (table w)) as Hstep.
  { unfold exec; simpl.
    rewrite route_redirect; [|done|by rewrite redirect_request_code].
    destruct (handleRedirect_cases env (redirect_request code) json_headers w)
      as [[E _]|[(_ & E & _)|[(_ & E & _)|(a' & _ & E & Hcases)]]];
      rewrite ?redirect_request_code in *; try congruence.
    rewrite Hlook in E; injection E as <-.
    destruct Hcases as [[Hexp _]|[_ R]]; [lia|].
    rewrite R. unfold after_metric, after_write_back. rewrite Hm, Hp.
    by destruct (metricErr env). }
  assert (click_count (bumped a) = click_count a + 1) as Hcount.
  { unfold bumped, Int64.add; simpl. apply wrap_in_range.
    unfold Int64.in_range, Int64.min_int, Int64.max_int in *. lia. }
  rewrite (IH _ code (bumped a)); try done.
  - rewrite Hstep, insert_insert_eq, Hcount. simpl.
    do 3 f_equal. lia.
  - rewrite Hstep. apply lookup_insert_eq.
  - lia.
  - lia.
Qed.

(** [n] resolves of a stored record, each with a working table and
    before the expiry, leave the record with its click count raised by
    exactly [n] (while that fits [int64]) and with nothing else in the
    table changed. *)
Theorem n_resolves_add_n envs w code a :
  code ≠ EmptyString ->
  table w !! code = Some (Attributes a) ->
  Forall (resolves a) envs ->
  Int64.min_int <= click_count a ->
  click_count a + Z.of_nat (length envs) <= Int64.max_int ->
  table (run baseURL (resolve_steps code envs) w) =
    <[code := Attributes (mkAttrs (original_url a) (expires_at a) (created_at a)
                                  (click_count a + Z.of_nat (length envs)))]> (table w).
Proof. apply resolve_steps_table. Qed.

(** ** The report *)


(** The report is read-only and always answers 200 with a nil error.
    When the scan fails it reports zero for every counter together with
    the field [error], and logs the failure. *)
Theorem report_degrades_on_scan_failure env request headers w :
  let out := handleMetrics env request headers w in
  table out.2 = table w ∧
  Response.StatusCode out.1.1 = 200 ∧ out.1.2 = None ∧
  (scanErr env = true ->
   Response.Body out.1.1 =
     json_Marshal (scan_failure_response (Time.Format_RFC3339 (clock env 0))) ∧
   EvLog "Failed to scan DynamoDB" ∈ trace out.2).
Proof.
  cbv zeta. split; [apply handleMetrics_table|].
  unfold handleMetrics, bind, go_publishCustomMetric, Scan, log_Printf, emit,
    respond, ret.
  destruct (metricErr env), (scanErr env); simpl;
    try destruct (fold_left _ _ _); simpl; split_and!; try done;
    intros _; (split; [done|]); apply elem_of_app; right; apply elem_of_cons; by left.
Qed.


Lemma handleMetrics_status_headers env request headers w :
  Response.StatusCode (handleMetrics env request headers w).1.1 = 200 ∧
  Response.Headers (handleMetrics env request headers w).1.1 = headers.
Proof.
  unfold handleMetrics, bind, go_publishCustomMetric, Scan, log_Printf, emit,
    respond, ret.
  destruct (metricErr env), (scanErr env); simpl;
    try destruct (fold_left _ _ _); done.
Qed.

(** ** Responses *)

(** Every answer of the handler other than a 200 or a 301 carries one
    of seven fixed bodies, chosen by its status; a 301 has an empty
    body.  No error text depends on the request, the table or the
    failure that occurred. *)
Theorem error_responses_have_fixed_bodies env request w :
  let out := handleRequest baseURL env request w in
  Response.StatusCode out.1.1 = 200 ∨
  (Response.StatusCode out.1.1 = 301 ∧ Response.Body out.1.1 = EmptyString) ∨
  Response.Body out.1.1 ∈ error_bodies (Response.StatusCode out.1.1).
Proof.
  unfold handleRequest. cbv zeta. fold json_headers.
  repeat destruct (decide (_ ∧ _)) as [_|_].
  - destruct (handleCreate_cases baseURL env request json_headers w)
      as [[_ E]|(m & _ & Hcases)].
    { rewrite E; simpl. do 2 right. listed. }
    cbv zeta in Hcases.
    destruct Hcases
      as [(_ & E)|[(_ & _ & E)|[(_ & _ & E)|[(_ & _ & _ & E)|(_ & _ & _ & E)]]]];
      rewrite E; simpl; first [by left | do 2 right; listed].
  - destruct (handleRedirect_cases env request json_headers w)
      as [[_ E]|[(_ & _ & E)|[(_ & _ & E)|(a & _ & _ & [[_ E]|[_ E]])]]];
      rewrite E; simpl; first [by right; left | do 2 right; listed].
  - left. by destruct (handleMetrics_status_headers env request json_headers w).
  - simpl. do 2 right. listed.
Qed.

(** ** What the table holds *)

Lemma exec_sound env request w :
  sound_table w -> sound_table (exec baseURL w (env, request)).
Proof.
  intros Hsound. unfold exec, handleRequest; simpl. fold json_headers.
  destruct (decide (_ ∧ _)) as [_|_].
  { destruct (handleCreate_cases baseURL env request json_headers w)
      as [[_ E]|(m & _ & Hcases)]; [by rewrite E|].
    cbv zeta in Hcases.
    destruct Hcases
      as [(_ & E)|[(_ & _ & E)|[(_ & _ & E)|[(_ & _ & _ & E)|(Ha & _ & _ & E)]]]];
      rewrite E; try done.
    intros k a; simpl. destruct (decide (k = generateShortCode (index m "url"))) as [->|Hk].
    - rewrite lookup_insert_eq. intros [= <-]. done.
    - rewrite lookup_insert_ne by done. apply Hsound. }
  destruct (decide (_ ∧ _)) as [_|_].
  { destruct (handleRedirect_cases env request json_headers w)
      as [[_ E]|[(_ & _ & E)|[(_ & _ & E)|(a & _ & Hlook & [[_ E]|[_ E]])]]];
      rewrite E; try done.
    unfold after_metric, after_write_back.
    destruct (metricErr env), (marshalErr env), (putItemErr env); try done;
      (intros k a'; simpl;
       destruct (decide (k = index (Request.PathParameters request) "shortCode"))
         as [->|Hk];
       [ rewrite lookup_insert_eq; intros [= <-]; exact (Hsound _ _ Hlook)
       | rewrite lookup_insert_ne by done; apply Hsound ]). }
  destruct (decide (_ ∧ _)) as [_|_]; [|done].
  intros k a. rewrite handleMetrics_table. apply Hsound.
Qed.

(** The handler keeps the table sound: if every record holds an
    accepted URL stored under the short code of that URL, this is still
    so after any sequence of requests, whatever fails on the way. *)
Theorem sound_table_preserved steps : ∀ w,
  sound_table w -> sound_table (run baseURL steps w).
Proof.
  induction steps as [|[env request] steps IH]; intros w Hsound; [done|].
  simpl. apply IH, exec_sound, Hsound.
Qed.

(** On a sound table the handler redirects only to a stored, accepted
    URL whose short code is the one asked for; every answer that is not
    a 301 carries the [Content-Type] header alone. *)
Theorem redirects_only_to_stored_accepted_urls env request w :
  sound_table w ->
  let out := handleRequest baseURL env request w in
  (Response.StatusCode out.1.1 = 301 ->
   ∃ a, table w !! index (Request.PathParameters request) "shortCode" =
          Some (Attributes a) ∧
        Response.Headers out.1.1 = <["Location" := original_url a]> json_headers ∧
        accepted (original_url a) ∧
        generateShortCode (original_url a) =
          index (Request.PathParameters request) "shortCode")
  ∧ (Response.StatusCode out.1.1 ≠ 301 -> Response.Headers out.1.1 = json_headers).
Proof.
  intros Hsound. unfold handleRequest. cbv zeta. fold json_headers.
  repeat destruct (decide (_ ∧ _)) as [_|_].
  - destruct (handleCreate_cases baseURL env request json_headers w)
      as [[_ E]|(m & _ & Hcases)].
    { rewrite E; simpl. split; [discriminate|done]. }
    cbv zeta in Hcases.
    destruct Hcases
      as [(_ & E)|[(_ & _ & E)|[(_ & _ & E)|[(_ & _ & _ & E)|(_ & _ & _ & E)]]]];
      rewrite E; simpl; (split; [discriminate|done]).
  - destruct (handleRedirect_cases env request json_headers w)
      as [[_ E]|[(_ & _ & E)|[(_ & _ & E)|(a & _ & Hlook & [[_ E]|[_ E]])]]];
      rewrite E; simpl; try (split; [discriminate|done]).
    split; [|done]. intros _. exists a.
    destruct (Hsound _ _ Hlook) as [Ha Hk]. done.
  - destruct (handleMetrics_status_headers env request json_headers w)
      as (Hs & Hh).
    rewrite Hs. split; [discriminate|done].
  - simpl. split; [discriminate|done].
Qed.

End Handler_facts.

(** ** Metrics *)

(** [publishCustomMetric] never touches the table and never fails for
    want of a client: without one it returns an error and the world is
    as before.  It returns nil exactly when it handed CloudWatch one
    datum with the given name, value and time.  The goroutine the
    handlers spawn is this call with its result dropped. *)
Theorem publishCustomMetric_outcomes client putErr metricName value now w :
  let out := publishCustomMetric client putErr metricName value now w in
  table out.2 = table w ∧
  (out.1 = None ↔ trace out.2 = (trace w ++ [EvMetric metricName value now])%list) ∧
  (out.1 ≠ None -> out.2 = w) ∧
  (client = false -> out.1 = Some (Err "cloudwatch client not initialized")) ∧
  ∀ env, metricErr env = negb client || putErr -> goClock env = now ->
         go_publishCustomMetric env metricName value w = (tt, out.2).
Proof.
  unfold publishCustomMetric, go_publishCustomMetric, bind, emit, ret.
  destruct client, putErr; simpl; split_and!; try done;
    try (split; [discriminate|]; intros E;
         apply (f_equal length) in E; rewrite length_app in E; simpl in E; lia);
    try (intros env -> <-; done); try discriminate.
Qed.

(** ** Start-up *)

(** When [init] returns, the handler has a table name and a base URL,
    neither of them empty; the base URL is [BASE_URL] or, when that is
    unset, the default.  The AWS clients exist exactly when
    [AWS_LAMBDA_FUNCTION_NAME] or [TEST_MODE] is set, and then the table
    name is the one of [DYNAMODB_TABLE]. *)
Theorem init_leaves_usable_configuration environ loadErr clients tableName baseURL :
  init environ loadErr = Initialized clients tableName baseURL ->
  tableName ≠ EmptyString ∧ baseURL ≠ EmptyString ∧
  baseURL = (if decide (index environ "BASE_URL" = EmptyString) then default_baseURL
             else index environ "BASE_URL") ∧
  (clients = true ↔
   index environ "AWS_LAMBDA_FUNCTION_NAME" ≠ EmptyString ∨
   index environ "TEST_MODE" ≠ EmptyString) ∧
  (clients = true -> tableName = index environ "DYNAMODB_TABLE" ∧ loadErr = false).
Proof.
  unfold init.
  destruct (decide (_ ∧ _)) as [[Hl Ht]|Hn].
  - intros [= <- <- <-]. split_and!.
    + by destruct (decide (index environ "DYNAMODB_TABLE" = EmptyString)).
    + by destruct (decide (index environ "BASE_URL" = EmptyString)).
    + done.
    + split; [discriminate|]. intros [?|?]; congruence.
    + discriminate.
  - destruct loadErr; [discriminate|].
    destruct (decide (index environ "DYNAMODB_TABLE" = EmptyString)) as [|Hd];
      [discriminate|].
    intros [= <- <- <-]. split_and!.
    + done.
    + by destruct (decide (index environ "BASE_URL" = EmptyString)).
    + done.
    + split; [|done]. intros _.
      destruct (decide (index environ "AWS_LAMBDA_FUNCTION_NAME" = EmptyString));
        destruct (decide (index environ "TEST_MODE" = EmptyString)); tauto.
    + done.
Qed.

(** * The further properties on concrete requests *)

Section Handler_facts_concrete.

Local Existing Instance Reference.runtime.

Lemma unrouted_request_witness :
  handleRequest test_base soon (Request.mk "PUT" "/create" ∅ (create_body foo))
    (foo_world 0) =
    (Response.mk 404 json_headers (error_body "Not found"), None, foo_world 0).
Proof.
  apply (unrouted_request_not_found test_base soon
           (Request.mk "PUT" "/create" ∅ (create_body foo)) (foo_world 0)).
  - vm_compute; discriminate.
  - intros [Hm _]. vm_compute in Hm. discriminate Hm.
Defined.


Lemma handler_validation_witness :
  isVaildHTTPUrl (index {[ "url" := "ftp://foo.com" ]} "url") = false ↔
  handleCreate test_base soon (create_request "ftp://foo.com") json_headers empty_world =
    (Response.mk 400 json_headers (error_body "Invalid URL: only http and https allowed"),
     None, empty_world).
Proof.
  apply (handler_validation_agrees_with_helper test_base soon
           (create_request "ftp://foo.com") json_headers empty_world
           {[ "url" := "ftp://foo.com" ]}).
  - vm_compute; reflexivity.
  - vm_compute; discriminate.
Defined.

Lemma create_changes_one_key_witness :
  let out := handleCreate test_base soon (create_request "https://bar.com") json_headers
               (foo_world 5) in
  table out.2 !! foo_code = table (foo_world 5) !! foo_code.
Proof.
  apply (proj2 (create_changes_one_key test_base soon (create_request "https://bar.com")
                  json_headers (foo_world 5)) {[ "url" := "https://bar.com" ]} foo_code).
  - vm_compute; reflexivity.
  - vm_compute; discriminate.
Defined.

Lemma create_reports_stored_expiry_witness :
  let code := generateShortCode (index {[ "url" := foo ]} "url") in
  let out := handleCreate test_base straddling (create_request foo) json_headers
               empty_world in
  ∃ a, table out.2 !! code = Some (Attributes a) ∧
       Response.Body out.1.1 =
         json_Marshal {[ "short_url" := JString (test_base +:+ "/s/" +:+ code);
                         "expires_at" := JString (Time.formatSeconds (expires_at a)) ]}.
Proof.
  apply (create_reports_stored_expiry test_base straddling (create_request foo)
           json_headers empty_world {[ "url" := foo ]});
    vm_compute; reflexivity.
Defined.

Lemma colliding_creates_witness :
  let url1 := index {[ "url" := twin_a ]} "url" in
  let url2 := index {[ "url" := twin_b ]} "url" in
  let out1 := handleCreate test_base soon (create_request twin_a) json_headers
                empty_world in
  let out2 := handleCreate test_base soon (create_request twin_b) json_headers out1.2 in
  table out2.2 !! generateShortCode url1 = Some (Attributes (created_attrs soon url2)) ∧
  (handleRedirect soon (redirect_request "74fbd58d") json_headers out2.2).1 =
    (Response.mk 301 (<["Location" := url2]> json_headers) EmptyString, None).
Proof.
  apply (colliding_creates_last_wins test_base soon soon soon (create_request twin_a)
           (create_request twin_b) (redirect_request "74fbd58d") json_headers
           json_headers json_headers empty_world
           {[ "url" := twin_a ]} {[ "url" := twin_b ]});
    try (vm_compute; reflexivity).
  vm_compute; discriminate.
Defined.

Lemma redirect_exactly_while_live_witness :
  let out := handleRedirect soon (redirect_request foo_code) json_headers (foo_world 0) in
  (Response.StatusCode out.1.1 = 301 ↔
   Time.Unix (clock soon 0) <= expires_at (foo_attrs 0)) ∧
  (Response.StatusCode out.1.1 = 404 ↔
   Time.Unix (clock soon 0) > expires_at (foo_attrs 0)).
Proof.
  apply (redirect_exactly_while_live soon (redirect_request foo_code) json_headers
           (foo_world 0) (foo_attrs 0));
    vm_compute; reflexivity.
Defined.

Lemma redirect_keeps_keys_witness :
  let out := handleRedirect soon (redirect_request bar_code) json_headers (foo_world 0) in
  table out.2 !! foo_code = table (foo_world 0) !! foo_code.
Proof.
  apply (proj2 (redirect_keeps_keys soon (redirect_request bar_code) json_headers
                  (foo_world 0)) foo_code).
  vm_compute; discriminate.
Defined.

Lemma redirect_metric_witness :
  let out := handleRedirect soon (redirect_request foo_code) json_headers (foo_world 0) in
  ∃ events : list Event,
    trace out.2 = (trace (foo_world 0) ++ events)%list ∧
    (EvMetric "UrlsAccessed" 1 (goClock soon) ∈ events ↔
     Response.StatusCode out.1.1 = 301 ∧ metricErr soon = false) ∧
    ∀ data, EvSum256 data ∉ events.
Proof.
  apply (redirect_metric_iff_301 soon (redirect_request foo_code) json_headers
           (foo_world 0)).
Defined.

Lemma n_resolves_witness :
  table (run test_base (resolve_steps foo_code [soon; soon; soon]) (foo_world 5)) =
    <[foo_code := Attributes (mkAttrs (original_url (foo_attrs 5))
                                      (expires_at (foo_attrs 5))
                                      (created_at (foo_attrs 5))
                                      (click_count (foo_attrs 5) + Z.of_nat 3))]>
      (table (foo_world 5)).
Proof.
  apply (n_resolves_add_n test_base [soon; soon; soon] (foo_world 5) foo_code
           (foo_attrs 5)).
  - vm_compute; discriminate.
  - vm_compute; reflexivity.
  - repeat constructor; vm_compute; discriminate.
  - vm_compute; discriminate.
  - vm_compute; discriminate.
Defined.

Lemma report_degrades_witness :
  let env := mkEnv (clock soon) false false false true false 0 in
  let out := handleMetrics env metrics_request json_headers (foo_world 5) in
  Response.Body out.1.1 =
    json_Marshal (scan_failure_response (Time.Format_RFC3339 (clock env 0))) ∧
  EvLog "Failed to scan DynamoDB" ∈ trace out.2.
Proof.
  apply (report_degrades_on_scan_failure
           (mkEnv (clock soon) false false false true false 0) metrics_request
           json_headers (foo_world 5)).
  reflexivity.
Defined.


Lemma created_link_lives_witness :
  let created := handleCreate test_base soon (create_request foo) json_headers
                   empty_world in
  let out := handleRedirect late (redirect_request foo_code) json_headers created.2 in
  (Response.StatusCode out.1.1 = 301 ↔
   Time.Unix (clock late 0) <= Time.Unix (clock soon 0) + 604800) ∧
  (Response.StatusCode out.1.1 = 404 ↔
   Time.Unix (clock late 0) > Time.Unix (clock soon 0) + 604800).
Proof.
  apply (created_link_lives_seven_days test_base soon (create_request foo) json_headers
           empty_world {[ "url" := foo ]} late (redirect_request foo_code) json_headers);
    vm_compute; reflexivity.
Defined.

Lemma foo_world_sound clicks : sound_table (foo_world clicks).
Proof.
  intros k a Hlook. unfold foo_world in Hlook. cbn [table] in Hlook.
  apply lookup_singleton_Some in Hlook as [<- [= <-]].
  split; [|vm_compute; reflexivity].
  split; [vm_compute; discriminate|].
  exists (mkURL "https"). split; [vm_compute; reflexivity|by right].
Qed.

Lemma sound_table_witness :
  sound_table
    (run test_base
       [ (soon, create_request "https://bar.com"); (soon, redirect_request foo_code);
         (late, redirect_request foo_code); (soon, metrics_request) ] (foo_world 5)).
Proof. apply (sound_table_preserved test_base). apply foo_world_sound. Defined.

Lemma redirects_only_to_accepted_witness :
  let out := handleRequest test_base soon (redirect_request foo_code) (foo_world 5) in
  (Response.StatusCode out.1.1 = 301 ->
   ∃ a, table (foo_world 5) !!
          index (Request.PathParameters (redirect_request foo_code)) "shortCode" =
          Some (Attributes a) ∧
        Response.Headers out.1.1 = <["Location" := original_url a]> json_headers ∧
        accepted (original_url a) ∧
        generateShortCode (original_url a) =
          index (Request.PathParameters (redirect_request foo_code)) "shortCode")
  ∧ (Response.StatusCode out.1.1 ≠ 301 -> Response.Headers out.1.1 = json_headers).
Proof.
  apply (redirects_only_to_stored_accepted_urls test_base soon
           (redirect_request foo_code) (foo_world 5)).
  apply foo_world_sound.
Defined.

Lemma init_witness :
  let environ : gmap string string :=
    {[ "AWS_LAMBDA_FUNCTION_NAME" := "ShortenerLambda"; "DYNAMODB_TABLE" := "UrlTable" ]} in
  "UrlTable" ≠ EmptyString ∧ default_baseURL ≠ EmptyString ∧
  default_baseURL =
    (if decide (index environ "BASE_URL" = EmptyString) then default_baseURL
     else index environ "BASE_URL") ∧
  (true = true ↔
   index environ "AWS_LAMBDA_FUNCTION_NAME" ≠ EmptyString ∨
   index environ "TEST_MODE" ≠ EmptyString) ∧
  (true = true -> "UrlTable" = index environ "DYNAMODB_TABLE" ∧ false = false).
Proof.
  apply (init_leaves_usable_configuration
           {[ "AWS_LAMBDA_FUNCTION_NAME" := "ShortenerLambda";
              "DYNAMODB_TABLE" := "UrlTable" ]} false true "UrlTable" default_baseURL).
  vm_compute; reflexivity.
Defined.

Lemma publishCustomMetric_witness :
  let out := publishCustomMetric false false "UrlsAccessed" 1 0 (foo_world 0) in
  out.2 = foo_world 0 ∧ out.1 = Some (Err "cloudwatch client not initialized").
Proof.
  pose proof (publishCustomMetric_outcomes false false "UrlsAccessed" 1 0 (foo_world 0))
    as (_ & _ & Hsame & Hnil & _).
  split; [apply Hsame; discriminate|apply Hnil; reflexivity].
Defined.

End Handler_facts_concrete.
